(** * Robinhood2Quicken: the Mint CSV export script

    A shallow embedding of [robinhood2quicken/export_mint_csv.py].  Pure
    helpers of the script are total functions into [result]; the parts of
    the script that talk to the terminal, to the account collaborator and
    to the file system run in a small state-and-exception monad over an
    explicit [world]. *)

From Stdlib Require Import ZArith Ascii String List Lia Bool.
From stdpp Require Import base option strings list gmap.

Local Open Scope string_scope.
Local Open Scope Z_scope.

(** ** Python values and built-ins used by the script *)

Module Py.

(** The exceptions the script can raise.  [ApiError] stands for whatever
    the account collaborator raises when a request fails. *)
Inductive exn : Type :=
| IndexError
| ValueError
| AssertionError
| ApiError (what : string).

Inductive result (A : Type) : Type :=
| Ok (a : A)
| Raise (e : exn).
Arguments Ok {A} a.
Arguments Raise {A} e.

#[export] Instance result_ret : MRet result := @Ok.
#[export] Instance result_bind : MBind result :=
  fun A B f r => match r with Ok a => f a | Raise e => Raise e end.

(** [l[i]] for a non-negative literal index. *)
Definition getitem {A} (l : list A) (i : nat) : result A :=
  match l !! i with
  | Some x => Ok x
  | None => Raise IndexError
  end.

(** [s.split(sep)] for a one-character separator: the string is cut at
    every occurrence of [sep]; the result is never empty. *)
Fixpoint split (sep : ascii) (s : string) : list string :=
  match s with
  | EmptyString => [EmptyString]
  | String c s' =>
      if Ascii.eqb c sep then EmptyString :: split sep s'
      else match split sep s' with
           | seg :: rest => String c seg :: rest
           | [] => [String c EmptyString]
           end
  end.

(** [sep.join(parts)] *)
Fixpoint join (sep : string) (parts : list string) : string :=
  match parts with
  | [] => EmptyString
  | [p] => p
  | p :: ps => p +:+ sep +:+ join sep ps
  end.

(** [for x in xs: acc = body(x, acc)], stopping at the first exception. *)
Fixpoint for_each {A S} (body : A -> S -> result S) (xs : list A) (acc : S)
  : result S :=
  match xs with
  | [] => Ok acc
  | x :: xs' => acc' ← body x acc; for_each body xs' acc'
  end.

(** Truth value of a string, and of [None]-or-list. *)
Definition truthy_str (s : string) : bool :=
  match s with EmptyString => false | _ => true end.

Definition truthy_opt_str (o : option string) : bool :=
  match o with None => false | Some s => truthy_str s end.

Definition truthy_opt_list {A} (o : option (list A)) : bool :=
  match o with None | Some [] => false | Some (_ :: _) => true end.

(** Characters that [str.isspace] accepts, restricted to ASCII: tab, line
    feed, vertical tab, form feed, carriage return, the four separators
    28-31 and the space. *)
Definition is_space (c : ascii) : bool :=
  let n := N_of_ascii c in
  (((9 <=? n) && (n <=? 13)) || ((28 <=? n) && (n <=? 32)))%N.

Definition digit_of (c : ascii) : option Z :=
  let n := N_of_ascii c in
  if ((48 <=? n) && (n <=? 57))%N then Some (Z.of_N n - 48) else None.

Fixpoint all_digits (s : string) : bool :=
  match s with
  | EmptyString => true
  | String c s' => match digit_of c with Some _ => all_digits s' | None => false end
  end.

(** Value of a run of decimal digits, most significant first. *)
Fixpoint decimal_value (s : string) (acc : Z) : Z :=
  match s with
  | EmptyString => acc
  | String c s' => decimal_value s' (10 * acc + default 0 (digit_of c))
  end.

Fixpoint lstrip (s : string) : string :=
  match s with
  | String c s' => if is_space c then lstrip s' else s
  | EmptyString => EmptyString
  end.

Fixpoint rstrip (s : string) : string :=
  match s with
  | EmptyString => EmptyString
  | String c s' =>
      match rstrip s' with
      | EmptyString => if is_space c then EmptyString else String c EmptyString
      | r => String c r
      end
  end.

(** Decimal digits with single underscores allowed between digits;
    [prev] tells whether the previous character was a digit. *)
Fixpoint int_digits (s : string) (acc : Z) (prev : bool) : option Z :=
  match s with
  | EmptyString => if prev then Some acc else None
  | String c s' =>
      match digit_of c with
      | Some v => int_digits s' (10 * acc + v) true
      | None =>
          if Ascii.eqb c "_" && prev then int_digits s' acc false else None
      end
  end.

(** [int(s)] in base ten on an ASCII string: surrounding white space is
    dropped, one sign is allowed; anything else is a [ValueError]. *)
Definition int (s : string) : result Z :=
  let body := rstrip (lstrip s) in
  let parsed :=
    match body with
    | String c ds =>
        if Ascii.eqb c "-" then Z.opp <$> int_digits ds 0 false
        else if Ascii.eqb c "+" then int_digits ds 0 false
        else int_digits body 0 false
    | EmptyString => int_digits body 0 false
    end in
  match parsed with
  | Some z => Ok z
  | None => Raise ValueError
  end.

(** [a, b, c = parts]: unpacking into exactly three names. *)
Definition unpack3 {A} (parts : list A) : result (A * A * A) :=
  match parts with
  | [a; b; c] => Ok (a, b, c)
  | _ => Raise ValueError
  end.

End Py.
Import Py.

(** ** Date conversion *)

(** [convert_robinhood_date]: the three subscripts are evaluated in the
    order in which they stand in the list display. *)
Definition convert_robinhood_date (robinhood_date : string) : result string :=
  let new_date := split "-" robinhood_date in
  a ← getitem new_date 1;
  b ← getitem new_date 2;
  c ← getitem new_date 0;
  Ok (join "/" [a; b; c]).

(** ** [datetime.datetime(year, month, day)]

    Only the date fields are stored: the script never passes a time of
    day, so the remaining fields of every value it builds are zero. *)

Module Datetime.

Record datetime : Type := mk_datetime { year : Z; month : Z; day : Z }.

Definition is_leap (y : Z) : bool :=
  (y mod 4 =? 0) && (negb (y mod 100 =? 0) || (y mod 400 =? 0)).

Definition days_in_month (y m : Z) : Z :=
  if m =? 2 then (if is_leap y then 29 else 28)
  else if (m =? 4) || (m =? 6) || (m =? 9) || (m =? 11) then 30
  else 31.

(** The range checks of the constructor. *)
Definition valid_ymd (y m d : Z) : bool :=
  (1 <=? y) && (y <=? 9999) && (1 <=? m) && (m <=? 12)
  && (1 <=? d) && (d <=? days_in_month y m).

Definition new (y m d : Z) : result datetime :=
  if valid_ymd y m d then Ok (mk_datetime y m d) else Raise ValueError.

(** [a > b]: the fields are compared as tuples. *)
Definition gt (a b : datetime) : bool :=
  (year b <? year a)
  || ((year a =? year b)
      && ((month b <? month a)
          || ((month a =? month b) && (day b <? day a)))).

(** Proleptic Gregorian ordinal, day 1 being 0001-01-01. *)
Definition days_before_year (y : Z) : Z :=
  let p := y - 1 in p * 365 + p / 4 - p / 100 + p / 400.

Fixpoint days_before_month_aux (y : Z) (k : nat) : Z :=
  match k with
  | O => 0
  | S k' => days_before_month_aux y k' + days_in_month y (Z.of_nat k)
  end.

Definition days_before_month (y m : Z) : Z :=
  days_before_month_aux y (Z.to_nat (m - 1)).

Definition toordinal (a : datetime) : Z :=
  days_before_year (year a) + days_before_month (year a) (month a) + day a.

End Datetime.
Import Datetime.

(** ** What a date text denotes (specification side)

    The two layouts are read by position, independently of the splitting
    and integer parsing the script performs. *)

Module DateText.

Definition two (a b : ascii) : option Z :=
  x ← digit_of a; y ← digit_of b; Some (10 * x + y).

Definition four (a b c d : ascii) : option Z :=
  x ← two a b; y ← two c d; Some (100 * x + y).

Definition checked (y m d : option Z) : option datetime :=
  y ← y; m ← m; d ← d;
  if valid_ymd y m d then Some (mk_datetime y m d) else None.

(** A field of a date text: a non-empty run of digits with a value. *)
Definition field (s : string) (v : Z) : Prop :=
  all_digits s = true /\ s <> EmptyString /\ decimal_value s 0 = v.

(** ["YYYY-MM-DD"] *)
Definition iso_date_value (s : string) : option datetime :=
  match s with
  | String y1 (String y2 (String y3 (String y4 (String s1
      (String m1 (String m2 (String s2
        (String d1 (String d2 EmptyString))))))))) =>
      if Ascii.eqb s1 "-" && Ascii.eqb s2 "-"
      then checked (four y1 y2 y3 y4) (two m1 m2) (two d1 d2)
      else None
  | _ => None
  end.

(** ["MM/DD/YYYY"] *)
Definition mint_date_value (s : string) : option datetime :=
  match s with
  | String m1 (String m2 (String s1 (String d1 (String d2 (String s2
      (String y1 (String y2 (String y3 (String y4 EmptyString))))))))) =>
      if Ascii.eqb s1 "/" && Ascii.eqb s2 "/"
      then checked (four y1 y2 y3 y4) (two m1 m2) (two d1 d2)
      else None
  | _ => None
  end.

(** The ["MM/DD/YYYY"] text of the date an ISO text denotes. *)
Definition iso_to_mint (s : string) : string :=
  match s with
  | String y1 (String y2 (String y3 (String y4 (String _
      (String m1 (String m2 (String _
        (String d1 (String d2 EmptyString))))))))) =>
      String m1 (String m2 (String "/" (String d1 (String d2 (String "/"
        (String y1 (String y2 (String y3 (String y4 EmptyString)))))))))
  | _ => s
  end.

(** The inverse conversion, ["MM/DD/YYYY"] back to ["YYYY-MM-DD"].  The
    script has no such function; it is the mirror image of
    [convert_robinhood_date]. *)
Definition convert_mint_date (mint_date : string) : result string :=
  let parts := split "/" mint_date in
  m ← getitem parts 0;
  d ← getitem parts 1;
  y ← getitem parts 2;
  Ok (join "-" [y; m; d]).

(** [a] is a later calendar day than [b]: more days have passed since
    0001-01-01. *)
Definition later (a b : datetime) : bool := toordinal b <? toordinal a.

(** The same on ["MM/DD/YYYY"] texts. *)
Definition later_text (s t : string) : bool :=
  match mint_date_value s, mint_date_value t with
  | Some a, Some b => later a b
  | _, _ => false
  end.

End DateText.
Import DateText.

(** ** [os.path.splitext] (POSIX flavour) *)

Module OsPath.

(** [s.rfind(c)] as an index, [-1] when [c] does not occur. *)
Fixpoint rfind_from (c : ascii) (s : string) (i last : Z) : Z :=
  match s with
  | EmptyString => last
  | String a s' => rfind_from c s' (i + 1) (if Ascii.eqb a c then i else last)
  end.

Definition rfind (c : ascii) (s : string) : Z := rfind_from c s 0 (-1).

Fixpoint any_char (p : ascii -> bool) (s : string) : bool :=
  match s with
  | EmptyString => false
  | String a s' => p a || any_char p s'
  end.

Fixpoint drop_chars (n : nat) (s : string) : string :=
  match n, s with
  | O, _ => s
  | S n', String _ s' => drop_chars n' s'
  | S _, EmptyString => EmptyString
  end.

Fixpoint take_chars (n : nat) (s : string) : string :=
  match n, s with
  | O, _ => EmptyString
  | S n', String a s' => String a (take_chars n' s')
  | S _, EmptyString => EmptyString
  end.

(** The extension starts at the last dot of the last path component,
    unless that component consists of leading dots up to there. *)
Definition splitext (p : string) : string * string :=
  let sepIndex := rfind "/" p in
  let dotIndex := rfind "." p in
  if (sepIndex <? dotIndex)
     && any_char (fun a => negb (Ascii.eqb a "."))
          (take_chars (Z.to_nat (dotIndex - (sepIndex + 1)))
             (drop_chars (Z.to_nat (sepIndex + 1)) p))
  then (take_chars (Z.to_nat dotIndex) p, drop_chars (Z.to_nat dotIndex) p)
  else (p, EmptyString).

End OsPath.

(** ** Floating point, left abstract

    [float(...)], the product of two floats, [numpy.round] and the text the
    csv module writes for a float belong to the interpreter and to numpy.
    The script is embedded over any implementation of them. *)

Class PyFloat : Type := {
  float : Type;
  float_of_str : string -> result float;
  float_mul : float -> float -> float;
  np_round : float -> Z -> float;
  float_str : float -> string
}.

(** The term model: every operation is recorded, none is computed.  It
    serves to run the script on concrete inputs. *)
Module TermFloat.

Inductive term : Type :=
| Lit (s : string)
| Mul (a b : term)
| Round (a : term) (decimals : Z).

(** Accepted literals: digits, optionally followed by a dot and digits. *)
Definition numeral (s : string) : bool :=
  match split "." s with
  | [i] => negb (String.eqb i "") && all_digits i
  | [i; f] => negb (String.eqb i "") && all_digits i && all_digits f
  | _ => false
  end.

Fixpoint show (t : term) : string :=
  match t with
  | Lit s => s
  | Mul a b => "(" +:+ show a +:+ "*" +:+ show b +:+ ")"
  | Round a _ => "round(" +:+ show a +:+ ")"
  end.

Definition instance : PyFloat := {|
  float := term;
  float_of_str := fun s => if numeral s then Ok (Lit s) else Raise ValueError;
  float_mul := Mul;
  np_round := Round;
  float_str := show
|}.

End TermFloat.

(** ** Records exchanged by the stages of the script *)

(** One element of [order["executions"]]. *)
Record execution : Type := {
  quantity : string;
  price : string;
  timestamp : string
}.

(** One element of [order_history()["results"]]. *)
Record order : Type := {
  order_instrument : string;
  side : string;
  executions : list execution
}.

(** One element of [dividends()["results"]]; [paid_at] may be [null]. *)
Record dividend : Type := {
  paid_at : option string;
  amount : string;
  payable_date : string;
  dividend_instrument : string
}.

(** ** The world the script runs in *)

(** The account collaborator, given by what its methods answer.
    [get_custom_endpoint] is reduced to the ["symbol"] entry of the reply,
    the only one the script reads. *)
Record Robinhood : Type := {
  login : string -> string -> bool;
  order_history : result (list order);
  dividends : result (list dividend);
  get_custom_endpoint : string -> result string
}.

(** What an observer of a run can see, in order of occurrence. *)
Inductive event : Type :=
| Stderr (text : string)
| PrintHelp
| Stdout (text : string)
| Elapsed
| Traceback (e : exn)
| CallLogin (username password : string)
| CallOrderHistory
| CallDividends
| CallCustomEndpoint (url : string).

(** A csv file is kept as the list of records written to it, each record
    being its list of cells; quoting and line ends are the csv module's. *)
Record world : Type := mk_world {
  log : list event;
  files : gmap string (list (list string))
}.

Record IO (A : Type) : Type := mk_IO { run : world -> result A * world }.
Arguments mk_IO {A} run.
Arguments run {A} _ _.

#[export] Instance IO_ret : MRet IO := fun A a => mk_IO (fun w => (Ok a, w)).
#[export] Instance IO_bind : MBind IO := fun A B f m =>
  mk_IO (fun w =>
    match run m w with
    | (Ok a, w') => run (f a) w'
    | (Raise e, w') => (Raise e, w')
    end).

Definition lift {A} (r : result A) : IO A := mk_IO (fun w => (r, w)).

Definition emit (ev : event) : IO unit :=
  mk_IO (fun w => (Ok tt, mk_world (log w ++ [ev])%list (files w))).

(** [open(path, 'w')]: the file is created, or emptied if it exists. *)
Definition open_w (path : string) : IO unit :=
  mk_IO (fun w => (Ok tt, mk_world (log w) (<[path := []]> (files w)))).

Definition append_record (path : string) (cells : list string) : IO unit :=
  mk_IO (fun w =>
    (Ok tt, mk_world (log w)
              (<[path := (default [] (files w !! path) ++ [cells])%list]> (files w)))).

Definition py_assert (b : bool) : IO unit :=
  lift (if b then Ok tt else Raise AssertionError).

Fixpoint io_for_each {A S} (body : A -> S -> IO S) (xs : list A) (acc : S)
  : IO S :=
  match xs with
  | [] => mret acc
  | x :: xs' => acc' ← body x acc; io_for_each body xs' acc'
  end.

(** The parsed command line.  [None] is the argparse default of an option:
    [True] for [--trades] and [--dividends], [False] for [--date] and
    [--output]; a given option carries its text. *)
Record args : Type := {
  username : string;
  password : string;
  trades : option string;
  arg_dividends : option string;
  date : option string;
  output : option string
}.

Definition truthy_default_true (o : option string) : bool :=
  match o with None => true | Some s => truthy_str s end.

Section Script.

Context `{PyFloat}.

(** The dictionaries built by [get_robinhood_trade_data]. *)
Record trade_datum : Type := {
  trade_ticker : string;
  trade_side : string;
  trade_quantity : string;
  trade_price : string;
  trade_Date : string;
  trade_cost : float
}.

(** The dictionaries built by [get_robinhood_dividend_data]. *)
Record dividend_datum : Type := {
  dividend_amount : string;
  dividend_Date : string;
  dividend_ticker : string
}.

(** A row in Mint layout, one field per key of [MINT_HEADERS]. *)
Record mint_row : Type := {
  Date : string;
  Description_Original : string;
  Description : string;
  Amount : float;
  Transaction_Type : string;
  Category : option string;
  Account_Name : option string;
  Labels : option string;
  Notes : option string
}.

Definition MINT_HEADERS : list string :=
  ["Date"; "Description Original"; "Description"; "Amount";
   "Transaction Type"; "Category"; "Account Name"; "Labels"; "Notes"].

(** *** [parse_robinhood_data_to_mint] *)

Definition trade_line (line : trade_datum) (mint_data : list mint_row)
  : result (list mint_row) :=
  d ← convert_robinhood_date (trade_Date line);
  Ok (mint_data ++
      [{| Date := d;
          Description_Original := trade_ticker line;
          Description := "Investments:" +:+ trade_side line;
          Amount := np_round (trade_cost line) 2;
          Transaction_Type := "credit";
          Category := Some (trade_side line);
          Account_Name := None;
          Labels := Some (trade_quantity line);
          Notes := Some (trade_price line) |}])%list.

Definition dividend_line (line : dividend_datum) (mint_data : list mint_row)
  : result (list mint_row) :=
  d ← convert_robinhood_date (dividend_Date line);
  a ← float_of_str (dividend_amount line);
  Ok (mint_data ++
      [{| Date := d;
          Description_Original := dividend_ticker line;
          Description := "Investments:Dividend Income";
          Amount := np_round a 2;
          Transaction_Type := "credit";
          Category := None;
          Account_Name := None;
          Labels := None;
          Notes := None |}])%list.

Definition parse_robinhood_data_to_mint
  (trade_data : option (list trade_datum))
  (dividend_data : option (list dividend_datum)) : result (list mint_row) :=
  let mint_data := [] in
  mint_data ←
    (if truthy_opt_list trade_data
     then for_each trade_line (default [] trade_data) mint_data
     else Ok mint_data);
  mint_data ←
    (if truthy_opt_list dividend_data
     then for_each dividend_line (default [] dividend_data) mint_data
     else Ok mint_data);
  Ok mint_data.

(** *** [filter_by_date]

    [key] is the projection that reads [transaction[key]]; the script
    only ever uses the default, ["Date"]. *)

Definition parse_mint_date (s : string) : result datetime :=
  '(m, d, y) ← unpack3 (split "/" s);
  y' ← int y;
  m' ← int m;
  d' ← int d;
  Datetime.new y' m' d'.

Definition filter_step {Row} (key : Row -> string) (filter_day : datetime)
  (transaction : Row) (filtered_data : list Row) : result (list Row) :=
  transaction_day ← parse_mint_date (key transaction);
  Ok (if Datetime.gt transaction_day filter_day
      then (filtered_data ++ [transaction])%list
      else filtered_data).

Definition filter_by_date {Row} (key : Row -> string) (date : string)
  (data : list Row) : result (list Row) :=
  let filtered_data := [] in
  filter_day ← parse_mint_date date;
  for_each (filter_step key filter_day) data filtered_data.

(** *** The fetchers *)

Definition api_order_history (robinhood_api : Robinhood) : IO (list order) :=
  _ ← emit CallOrderHistory; lift (order_history robinhood_api).

Definition api_dividends (robinhood_api : Robinhood) : IO (list dividend) :=
  _ ← emit CallDividends; lift (dividends robinhood_api).

Definition api_get_custom_endpoint (robinhood_api : Robinhood) (url : string)
  : IO string :=
  _ ← emit (CallCustomEndpoint url); lift (get_custom_endpoint robinhood_api url).

Definition trade_order (robinhood_api : Robinhood) (o : order)
  (trade_data : list trade_datum) : IO (list trade_datum) :=
  ticker ← api_get_custom_endpoint robinhood_api (order_instrument o);
  _ ← emit (Stdout ticker);
  if (0 <? length (executions o))%nat then
    e0 ← lift (getitem (executions o) 0);
    stamp ← lift (getitem (split "T" (timestamp e0)) 0);
    p ← lift (float_of_str (price e0));
    q ← lift (float_of_str (quantity e0));
    mret (trade_data ++
          [{| trade_ticker := ticker;
              trade_side := side o;
              trade_quantity := quantity e0;
              trade_price := price e0;
              trade_Date := stamp;
              trade_cost := float_mul p q |}])%list
  else mret trade_data.

Definition get_robinhood_trade_data (robinhood_api : Robinhood)
  : IO (list trade_datum) :=
  orders ← api_order_history robinhood_api;
  io_for_each (trade_order robinhood_api) orders [].

Definition dividend_record (robinhood_api : Robinhood) (d : dividend)
  (dividend_data : list dividend_datum) : IO (list dividend_datum) :=
  if truthy_opt_str (paid_at d) then
    ticker ← api_get_custom_endpoint robinhood_api (dividend_instrument d);
    mret (dividend_data ++
          [{| dividend_amount := amount d;
              dividend_Date := payable_date d;
              dividend_ticker := ticker |}])%list
  else mret dividend_data.

Definition get_robinhood_dividend_data (robinhood_api : Robinhood)
  : IO (list dividend_datum) :=
  let dividend_data := [] in
  ds ← api_dividends robinhood_api;
  io_for_each (dividend_record robinhood_api) ds dividend_data.

(** *** [write_csv] *)

(** [row.get(key, "")] as the csv module writes it: [None] becomes the
    empty cell, a float its text. *)
Definition opt_cell (o : option string) : string := default "" o.

Definition row_cell (row : mint_row) (key_name : string) : string :=
  if String.eqb key_name "Date" then Date row
  else if String.eqb key_name "Description Original" then Description_Original row
  else if String.eqb key_name "Description" then Description row
  else if String.eqb key_name "Amount" then float_str (Amount row)
  else if String.eqb key_name "Transaction Type" then Transaction_Type row
  else if String.eqb key_name "Category" then opt_cell (Category row)
  else if String.eqb key_name "Account Name" then opt_cell (Account_Name row)
  else if String.eqb key_name "Labels" then opt_cell (Labels row)
  else if String.eqb key_name "Notes" then opt_cell (Notes row)
  else "".

Definition has_field (fieldnames : list string) (k : string) : bool :=
  existsb (String.eqb k) fieldnames.

(** [DictWriter.writerow]: a row with a key outside [fieldnames] is a
    [ValueError]; every row of the script has the nine Mint keys. *)
Definition writerow (path : string) (fieldnames : list string) (row : mint_row)
  : IO unit :=
  _ ← lift (if forallb (has_field fieldnames) MINT_HEADERS
            then Ok tt else Raise ValueError);
  append_record path (map (row_cell row) fieldnames).

Definition write_csv (header : list string) (data : list mint_row)
  (output_path : string) : IO string :=
  _ ← py_assert (String.eqb (snd (OsPath.splitext output_path)) ".csv");
  _ ← open_w output_path;
  _ ← append_record output_path header;
  _ ← io_for_each (fun row (_ : unit) => writerow output_path header row) data tt;
  mret output_path.

(** *** [CommandLine.do_usage_and_die] and [main] *)

Definition do_usage_and_die (message : string) : IO Z :=
  _ ← emit (Stderr message);
  _ ← emit PrintHelp;
  mret 2.

Definition main (a : args) (robinhood_api_handle : Robinhood) : IO unit :=
  let dividend_data : option (list dividend_datum) := None in
  let trade_data : option (list trade_datum) := None in
  _ ← emit (CallLogin (username a) (password a));
  let logged_in := login robinhood_api_handle (username a) (password a) in
  _ ← (if negb logged_in
       then _ ← do_usage_and_die "Username or Password is incorrect"; mret tt
       else mret tt);
  dividend_data ←
    (if truthy_default_true (arg_dividends a)
     then r ← get_robinhood_dividend_data robinhood_api_handle; mret (Some r)
     else mret dividend_data);
  trade_data ←
    (if truthy_default_true (trades a)
     then r ← get_robinhood_trade_data robinhood_api_handle; mret (Some r)
     else mret trade_data);
  mint_data ← lift (parse_robinhood_data_to_mint trade_data dividend_data);
  mint_data ←
    (if truthy_opt_str (date a)
     then lift (filter_by_date Date (default "" (date a)) mint_data)
     else mret mint_data);
  _ ← (if truthy_opt_str (output a)
       then write_csv MINT_HEADERS mint_data (default "" (output a))
       else write_csv MINT_HEADERS mint_data "robinhood_output.csv");
  emit Elapsed.

(** The module run as a script: [main()] followed by [raise SystemExit],
    which ends the process with status 0; an exception that escapes
    [main] ends it with a traceback and status 1. *)
Definition script (a : args) (robinhood_api_handle : Robinhood) (w : world)
  : Z * world :=
  match run (main a robinhood_api_handle) w with
  | (Ok _, w') => (0, w')
  | (Raise e, w') => (1, mk_world (log w' ++ [Traceback e])%list (files w'))
  end.

End Script.

(** ** The normalizer, in the words of the specification

    These are the rows the specification promises, against which
    [parse_robinhood_data_to_mint] is compared. *)

Section Normalizer.

Context `{PyFloat}.

(** Trade to output row: the date as ["MM/DD/YYYY"], the ticker,
    ["Investments:" + side], [round(price * quantity, 2)], the side, the
    quantity and the price. *)
Definition trade_output_row (t : trade_datum) (pq : float * float) : mint_row :=
  {| Date := iso_to_mint (trade_Date t);
     Description_Original := trade_ticker t;
     Description := "Investments:" +:+ trade_side t;
     Amount := np_round (float_mul (fst pq) (snd pq)) 2;
     Transaction_Type := "credit";
     Category := Some (trade_side t);
     Account_Name := None;
     Labels := Some (trade_quantity t);
     Notes := Some (trade_price t) |}.

(** Dividend to output row. *)
Definition dividend_output_row (d : dividend_datum) (a : float) : mint_row :=
  {| Date := iso_to_mint (dividend_Date d);
     Description_Original := dividend_ticker d;
     Description := "Investments:Dividend Income";
     Amount := np_round a 2;
     Transaction_Type := "credit";
     Category := None;
     Account_Name := None;
     Labels := None;
     Notes := None |}.

(** A trade as [get_robinhood_trade_data] builds it, [pq] being its price
    and quantity as floats: the cost is their product.  The date is
    required to be an ISO date. *)
Definition fetched_trade (t : trade_datum) (pq : float * float) : Prop :=
  is_Some (iso_date_value (trade_Date t))
  /\ float_of_str (trade_price t) = Ok (fst pq)
  /\ float_of_str (trade_quantity t) = Ok (snd pq)
  /\ trade_cost t = float_mul (fst pq) (snd pq).

(** The same without the condition on the date. *)
Definition priced (t : trade_datum) : Prop :=
  exists pq, float_of_str (trade_price t) = Ok (fst pq)
             /\ float_of_str (trade_quantity t) = Ok (snd pq)
             /\ trade_cost t = float_mul (fst pq) (snd pq).

(** A dividend with an ISO date and an amount that reads as [a]. *)
Definition fetched_dividend (d : dividend_datum) (a : float) : Prop :=
  is_Some (iso_date_value (dividend_Date d))
  /\ float_of_str (dividend_amount d) = Ok a.

End Normalizer.

(** ** Collaborators and inputs used to state and to run the properties *)

(** The same collaborator, answering [dividends()] with [ds]. *)
Definition with_dividends (api : Robinhood) (ds : list dividend) : Robinhood :=
  {| login := login api;
     order_history := order_history api;
     dividends := Ok ds;
     get_custom_endpoint := get_custom_endpoint api |}.

Definition with_paid_at (d : dividend) (p : option string) : dividend :=
  {| paid_at := p;
     amount := amount d;
     payable_date := payable_date d;
     dividend_instrument := dividend_instrument d |}.

Definition not_null (d : dividend) : bool :=
  match paid_at d with None => false | Some _ => true end.

(** Two programs that cannot be told apart in any world. *)
Definition io_eq {A} (m1 m2 : IO A) : Prop := forall w, run m1 w = run m2 w.

Module Sample.

#[local] Existing Instance TermFloat.instance.

Definition row (d : string) (ticker : string) (a : string) : mint_row :=
  {| Date := d;
     Description_Original := ticker;
     Description := "Investments:Dividend Income";
     Amount := TermFloat.Round (TermFloat.Lit a) 2;
     Transaction_Type := "credit";
     Category := None;
     Account_Name := None;
     Labels := None;
     Notes := None |}.

Definition rows : list mint_row :=
  [row "05/18/2017" "MSFT" "5.04";
   row "12/31/2016" "AAPL" "1.10";
   row "01/01/2018" "KO" "0.39"].

Definition aapl_order : order :=
  {| order_instrument := "https://api.robinhood.com/instruments/aapl/";
     side := "buy";
     executions :=
       [{| quantity := "10"; price := "150.005";
           timestamp := "2020-01-15T00:00:00" |}] |}.

Definition msft_dividend : dividend :=
  {| paid_at := Some "2017-05-18T00:00:00";
     amount := "5.04";
     payable_date := "2017-05-18";
     dividend_instrument := "https://api.robinhood.com/instruments/msft/" |}.

Definition pending_dividend : dividend :=
  {| paid_at := None;
     amount := "0.82";
     payable_date := "2020-02-13";
     dividend_instrument := "https://api.robinhood.com/instruments/aapl/" |}.

Definition symbol_of (url : string) : result string :=
  if String.eqb url "https://api.robinhood.com/instruments/aapl/" then Ok "AAPL"
  else if String.eqb url "https://api.robinhood.com/instruments/msft/" then Ok "MSFT"
  else Raise (ApiError url).

(** An account whose [login] refuses every credential. *)
Definition locked_out : Robinhood :=
  {| login := fun _ _ => false;
     order_history := Ok [aapl_order];
     dividends := Ok [msft_dividend; pending_dividend];
     get_custom_endpoint := symbol_of |}.

Definition default_args : args :=
  {| username := "user"; password := "wrong";
     trades := None; arg_dividends := None; date := None; output := None |}.

Definition empty_world : world := mk_world [] ∅.

Definition aapl_trade : trade_datum :=
  {| trade_ticker := "AAPL";
     trade_side := "buy";
     trade_quantity := "10";
     trade_price := "150.005";
     trade_Date := "2020-01-15";
     trade_cost := TermFloat.Mul (TermFloat.Lit "150.005") (TermFloat.Lit "10") |}.

Definition msft_payment : dividend_datum :=
  {| dividend_amount := "5.04";
     dividend_Date := "2017-05-18";
     dividend_ticker := "MSFT" |}.

End Sample.

(** ** [reinvest_dividends.py]

    The second script repeats [CommandLine] and [main] of the first one,
    but imports a single name from it.  Every other global name its [main]
    uses is resolved against the names the module binds, and raises
    [NameError] when it is not among them. *)

Module Reinvest.

Inductive error : Type :=
| Propagated (e : exn)
| NameError (name : string).

Record RIO (A : Type) : Type := mk_RIO { rrun : world -> (error + A) * world }.
Arguments mk_RIO {A} rrun.
Arguments rrun {A} _ _.

#[export] Instance RIO_ret : MRet RIO := fun A a => mk_RIO (fun w => (inr a, w)).
#[export] Instance RIO_bind : MBind RIO := fun A B f m =>
  mk_RIO (fun w =>
    match rrun m w with
    | (inr a, w') => rrun (f a) w'
    | (inl e, w') => (inl e, w')
    end).

(** Code of [export_mint_csv], run from this module. *)
Definition imported {A} (m : IO A) : RIO A :=
  mk_RIO (fun w =>
    match run m w with
    | (Ok a, w') => (inr a, w')
    | (Raise e, w') => (inl (Propagated e), w')
    end).

(** The names bound at module level: the imports, the class and [main]. *)
Definition globals : list string :=
  ["sys"; "os"; "csv"; "argparse"; "np"; "timer"; "datetime"; "Robinhood";
   "get_robinhood_dividend_data"; "CommandLine"; "main"].

(** Evaluating the global [name], which would denote [v] if it were bound. *)
Definition global {A} (name : string) (v : A) : RIO A :=
  mk_RIO (fun w =>
    if existsb (String.eqb name) globals then (inr v, w)
    else (inl (NameError name), w)).

Section Main.

Context `{PyFloat}.

Definition main (a : args) (robinhood_api_handle : Robinhood) : RIO unit :=
  let dividend_data : option (list dividend_datum) := None in
  let trade_data : option (list trade_datum) := None in
  _ ← imported (emit (CallLogin (username a) (password a)));
  let logged_in := login robinhood_api_handle (username a) (password a) in
  _ ← (if negb logged_in
       then _ ← imported (do_usage_and_die "Username or Password is incorrect");
            mret tt
       else mret tt);
  dividend_data ←
    (if truthy_default_true (arg_dividends a)
     then f ← global "get_robinhood_dividend_data" get_robinhood_dividend_data;
          r ← imported (f robinhood_api_handle); mret (Some r)
     else mret dividend_data);
  trade_data ←
    (if truthy_default_true (trades a)
     then f ← global "get_robinhood_trade_data" get_robinhood_trade_data;
          r ← imported (f robinhood_api_handle); mret (Some r)
     else mret trade_data);
  f ← global "parse_robinhood_data_to_mint" parse_robinhood_data_to_mint;
  mint_data ← imported (lift (f trade_data dividend_data));
  mint_data ←
    (if truthy_opt_str (date a)
     then f ← global "filter_by_date" (filter_by_date Date);
          imported (lift (f (default "" (date a)) mint_data))
     else mret mint_data);
  _ ← (if truthy_opt_str (output a)
       then f ← global "write_csv" write_csv;
            h ← global "MINT_HEADERS" MINT_HEADERS;
            imported (f h mint_data (default "" (output a)))
       else f ← global "write_csv" write_csv;
            h ← global "MINT_HEADERS" MINT_HEADERS;
            imported (f h mint_data "robinhood_output.csv"));
  imported (emit Elapsed).

End Main.

End Reinvest.

(** ** Notions used to state further properties *)

Definition is_ok {A} (r : result A) : bool :=
  match r with Ok _ => true | Raise _ => false end.

(** A program that leaves every file as it is, whatever its outcome. *)
Definition keeps_files {A} (m : IO A) : Prop :=
  forall w, files (snd (run m w)) = files w.

(** The same collaborator, answering [order_history()] with [os]. *)
Definition with_orders (api : Robinhood) (os : list order) : Robinhood :=
  {| login := login api;
     order_history := Ok os;
     dividends := dividends api;
     get_custom_endpoint := get_custom_endpoint api |}.

Definition executed (o : order) : bool :=
  match executions o with [] => false | _ :: _ => true end.

(** The order with its executions after the first one removed. *)
Definition first_only (o : order) : order :=
  {| order_instrument := order_instrument o;
     side := side o;
     executions := take 1 (executions o) |}.

Definition paid (d : dividend) : bool := truthy_opt_str (paid_at d).

(** The same command line with other values for single options. *)
Definition with_trades (a : args) (v : option string) : args :=
  {| username := username a; password := password a;
     trades := v; arg_dividends := arg_dividends a;
     date := date a; output := output a |}.

Definition with_arg_dividends (a : args) (v : option string) : args :=
  {| username := username a; password := password a;
     trades := trades a; arg_dividends := v;
     date := date a; output := output a |}.

(** The path [main] hands to [write_csv]. *)
Definition target (a : args) : string :=
  if truthy_opt_str (output a) then default "" (output a)
  else "robinhood_output.csv".

(** The world after more events. *)
Definition logged (w : world) (evs : list event) : world :=
  mk_world (log w ++ evs)%list (files w).

(** What handling one order shows to an observer. *)
Definition order_log (api : Robinhood) (o : order) : list event :=
  CallCustomEndpoint (order_instrument o)
  :: match get_custom_endpoint api (order_instrument o) with
     | Ok ticker => [Stdout ticker]
     | Raise _ => []
     end.

Section FetchedRecords.

Context `{PyFloat}.

(** Handling the order raises nothing: its instrument resolves, and if
    it was executed, the price and the quantity of its first execution
    read as floats. *)
Definition order_ok (api : Robinhood) (o : order) : bool :=
  is_ok (get_custom_endpoint api (order_instrument o))
  && match executions o with
     | [] => true
     | e :: _ => is_ok (float_of_str (price e)) && is_ok (float_of_str (quantity e))
     end.

(** The trade [t] stands for the order [o]: ticker of its instrument,
    its side, quantity and price of its first execution, and as date the
    part of the first execution's timestamp before the first ["T"]. *)
Definition trade_from (api : Robinhood) (t : trade_datum) (o : order) : Prop :=
  exists e rest tail,
    executions o = e :: rest
    /\ get_custom_endpoint api (order_instrument o) = Ok (trade_ticker t)
    /\ trade_side t = side o
    /\ trade_quantity t = quantity e
    /\ trade_price t = price e
    /\ split "T" (timestamp e) = trade_Date t :: tail.

(** The record [o] stands for the dividend [d]. *)
Definition payment_from (api : Robinhood) (o : dividend_datum) (d : dividend)
  : Prop :=
  get_custom_endpoint api (dividend_instrument d) = Ok (dividend_ticker o)
  /\ dividend_amount o = amount d
  /\ dividend_Date o = payable_date d.

End FetchedRecords.

Section ParsedRows.

Context `{PyFloat}.

(** The row [r] is the Mint row of the trade [t]. *)
Definition row_of_trade (r : mint_row) (t : trade_datum) : Prop :=
  convert_robinhood_date (trade_Date t) = Ok (Date r)
  /\ Description_Original r = trade_ticker t
  /\ Description r = "Investments:" +:+ trade_side t
  /\ Amount r = np_round (trade_cost t) 2
  /\ Transaction_Type r = "credit"
  /\ Category r = Some (trade_side t)
  /\ Account_Name r = None
  /\ Labels r = Some (trade_quantity t)
  /\ Notes r = Some (trade_price t).

(** The row [r] is the Mint row of the dividend [d]. *)
Definition row_of_dividend (r : mint_row) (d : dividend_datum) : Prop :=
  convert_robinhood_date (dividend_Date d) = Ok (Date r)
  /\ Description_Original r = dividend_ticker d
  /\ Description r = "Investments:Dividend Income"
  /\ (exists a, float_of_str (dividend_amount d) = Ok a /\ Amount r = np_round a 2)
  /\ Transaction_Type r = "credit"
  /\ Category r = None
  /\ Account_Name r = None
  /\ Labels r = None
  /\ Notes r = None.

(** The date of the trade has at least three segments. *)
Definition trade_line_ok (t : trade_datum) : bool :=
  (3 <=? length (split "-" (trade_Date t)))%nat.

(** The date of the dividend has at least three segments and its amount
    reads as a float. *)
Definition dividend_line_ok (d : dividend_datum) : bool :=
  (3 <=? length (split "-" (dividend_Date d)))%nat
  && is_ok (float_of_str (dividend_amount d)).

End ParsedRows.

(** What [filter_by_date] keeps: the rows whose date reads as a day after
    [day]. *)
Definition after {Row} (key : Row -> string) (day : datetime) (r : Row) : bool :=
  match parse_mint_date (key r) with
  | Ok d => Datetime.gt d day
  | Raise _ => false
  end.

Definition readable {Row} (key : Row -> string) (r : Row) : bool :=
  is_ok (parse_mint_date (key r)).

(** A program that only adds events satisfying [P] to the log, whatever
    its outcome. *)
Definition emits {A} (P : event -> Prop) (m : IO A) : Prop :=
  forall w, exists evs,
    log (snd (run m w)) = (log w ++ evs)%list /\ Forall P evs.

(** A program that either returns, leaving at [path] a csv file that
    starts with [header] and every other file as it was, or raises,
    leaving every file as it was. *)
Definition writes_or_raises {A} (path : string) (header : list string)
    (m : IO A) : Prop :=
  forall w,
    match run m w with
    | (Ok _, w') => exists rows, files w' = <[path := header :: rows]> (files w)
    | (Raise _, w') => files w' = files w
    end.

Section Records.

Context `{PyFloat}.

(** The cells of a row, in the order of the header. *)
Definition record_of (header : list string) (row : mint_row) : list string :=
  map (row_cell row) header.

End Records.

(** A program that raises in every world. *)
Definition always_raises {A} (m : IO A) : Prop :=
  forall w, exists e w', run m w = (Raise e, w').

(** ** A second account, for runs of the fetchers *)

Module Portfolio.

#[local] Existing Instance TermFloat.instance.

Definition aapl : string := "https://api.robinhood.com/instruments/aapl/".
Definition msft : string := "https://api.robinhood.com/instruments/msft/".

(** An order that was never executed. *)
Definition open_order : order :=
  {| order_instrument := msft; side := "sell"; executions := [] |}.

Definition first_fill : execution :=
  {| quantity := "4"; price := "151.50";
     timestamp := "2020-02-03T14:30:00.000000Z" |}.

(** An order filled in two executions. *)
Definition split_order : order :=
  {| order_instrument := aapl; side := "sell";
     executions :=
       [first_fill;
        {| quantity := "6"; price := "151.75";
           timestamp := "2020-02-03T14:31:00.000000Z" |}] |}.

Definition orders : list order :=
  [Sample.aapl_order; open_order; split_order].

Definition account : Robinhood :=
  {| login := fun _ pw => String.eqb pw "secret";
     order_history := Ok orders;
     dividends := Ok [Sample.msft_dividend; Sample.pending_dividend];
     get_custom_endpoint := Sample.symbol_of |}.

Definition split_trade : trade_datum :=
  {| trade_ticker := "AAPL";
     trade_side := "sell";
     trade_quantity := "4";
     trade_price := "151.50";
     trade_Date := "2020-02-03";
     trade_cost := TermFloat.Mul (TermFloat.Lit "151.50") (TermFloat.Lit "4") |}.

Definition fetched : list trade_datum := [Sample.aapl_trade; split_trade].

Definition after_trades : world :=
  logged Sample.empty_world
    [CallOrderHistory;
     CallCustomEndpoint aapl; Stdout "AAPL";
     CallCustomEndpoint msft; Stdout "MSFT";
     CallCustomEndpoint aapl; Stdout "AAPL"].

Definition after_dividends : world :=
  logged Sample.empty_world [CallDividends; CallCustomEndpoint msft].

Definition aapl_row : mint_row :=
  {| Date := "01/15/2020";
     Description_Original := "AAPL";
     Description := "Investments:buy";
     Amount := TermFloat.Round
                 (TermFloat.Mul (TermFloat.Lit "150.005") (TermFloat.Lit "10")) 2;
     Transaction_Type := "credit";
     Category := Some "buy";
     Account_Name := None;
     Labels := Some "10";
     Notes := Some "150.005" |}.

Definition to_text_file : args :=
  {| username := "user"; password := "secret";
     trades := None; arg_dividends := None; date := None;
     output := Some "out.txt" |}.

End Portfolio.

(** * Properties *)

(** ** Strings, digits and [int] *)

Lemma digit_of_facts (c : ascii) (v : Z) :
  digit_of c = Some v ->
  0 <= v <= 9 /\ Ascii.eqb c "-" = false /\ Ascii.eqb c "/" = false
  /\ Ascii.eqb c "_" = false /\ Ascii.eqb c "+" = false /\ is_space c = false.
Proof.
  destruct c as [[] [] [] [] [] [] [] []]; vm_compute; intros E;
    try discriminate E; injection E as <-; repeat split; congruence.
Qed.

Lemma all_digits_cons (c : ascii) (s : string) :
  all_digits (String c s) = true ->
  exists v, digit_of c = Some v /\ all_digits s = true.
Proof.
  simpl. destruct (digit_of c) as [v|]; [eauto | discriminate].
Qed.

Lemma split_plain (sep : ascii) (s : string) :
  digit_of sep = None -> all_digits s = true -> split sep s = [s].
Proof.
  intros Hsep. induction s as [|c s IH]; intros Hs; [reflexivity|].
  apply all_digits_cons in Hs as (v & Hc & Hs). simpl.
  destruct (Ascii.eqb_spec c sep) as [->|_]; [congruence|].
  now rewrite (IH Hs).
Qed.

Lemma split_segment (sep : ascii) (s rest : string) :
  digit_of sep = None -> all_digits s = true ->
  split sep (s +:+ String sep rest) = s :: split sep rest.
Proof.
  intros Hsep. induction s as [|c s IH]; intros Hs.
  - simpl. now rewrite Ascii.eqb_refl.
  - apply all_digits_cons in Hs as (v & Hc & Hs). simpl.
    destruct (Ascii.eqb_spec c sep) as [->|_]; [congruence|].
    now rewrite (IH Hs).
Qed.

Lemma lstrip_digits (s : string) : all_digits s = true -> lstrip s = s.
Proof.
  destruct s as [|c s]; [reflexivity|]. intros Hs.
  apply all_digits_cons in Hs as (v & Hc & _).
  apply digit_of_facts in Hc as (_ & _ & _ & _ & _ & Hsp).
  simpl. now rewrite Hsp.
Qed.

Lemma rstrip_digits (s : string) : all_digits s = true -> rstrip s = s.
Proof.
  induction s as [|c s IH]; [reflexivity|]. intros Hs.
  apply all_digits_cons in Hs as (v & Hc & Hs).
  apply digit_of_facts in Hc as (_ & _ & _ & _ & _ & Hsp).
  simpl. rewrite (IH Hs), Hsp. now destruct s.
Qed.

Lemma int_digits_all (s : string) :
  all_digits s = true ->
  forall acc prev, s <> EmptyString \/ prev = true ->
  int_digits s acc prev = Some (decimal_value s acc).
Proof.
  induction s as [|c s IH]; intros Hs acc prev Hne.
  - destruct Hne as [Hne| ->]; [congruence | reflexivity].
  - apply all_digits_cons in Hs as (v & Hc & Hs).
    simpl. rewrite Hc. simpl. apply IH; auto.
Qed.

(** [int] reads a non-empty run of digits as its decimal value. *)
Lemma int_digits_text (s : string) :
  all_digits s = true -> s <> EmptyString -> int s = Ok (decimal_value s 0).
Proof.
  intros Hs Hne. unfold int.
  rewrite (lstrip_digits s Hs), (rstrip_digits s Hs).
  destruct s as [|c s]; [congruence|].
  destruct (all_digits_cons _ _ Hs) as (v & Hc & _).
  apply digit_of_facts in Hc as (_ & Hm & _ & _ & Hp & _).
  rewrite Hm, Hp. now rewrite (int_digits_all _ Hs 0 false) by (left; congruence).
Qed.

Lemma two_digits (a b : ascii) (v : Z) :
  two a b = Some v ->
  all_digits (String a (String b EmptyString)) = true
  /\ decimal_value (String a (String b EmptyString)) 0 = v.
Proof.
  unfold two. simpl.
  destruct (digit_of a) as [x|]; simpl; [|discriminate].
  destruct (digit_of b) as [y|]; simpl; [|discriminate].
  intros [= <-]. split; [reflexivity | lia].
Qed.

Lemma four_digits (a b c d : ascii) (v : Z) :
  four a b c d = Some v ->
  all_digits (String a (String b (String c (String d EmptyString)))) = true
  /\ decimal_value (String a (String b (String c (String d EmptyString)))) 0 = v.
Proof.
  unfold four, two. simpl.
  destruct (digit_of a) as [x|]; simpl; [|discriminate].
  destruct (digit_of b) as [y|]; simpl; [|discriminate].
  destruct (digit_of c) as [z|]; simpl; [|discriminate].
  destruct (digit_of d) as [t|]; simpl; [|discriminate].
  intros [= <-]. split; [reflexivity | lia].
Qed.

(** ** The shape of a well-formed date text *)

Lemma field_two (a b : ascii) (v : Z) :
  two a b = Some v -> field (String a (String b EmptyString)) v.
Proof. intros Hv. destruct (two_digits _ _ _ Hv). now repeat split. Qed.

Lemma field_four (a b c d : ascii) (v : Z) :
  four a b c d = Some v ->
  field (String a (String b (String c (String d EmptyString)))) v.
Proof. intros Hv. destruct (four_digits _ _ _ _ _ Hv). now repeat split. Qed.

Lemma field_int (s : string) (v : Z) : field s v -> int s = Ok v.
Proof. intros (Hd & Hne & <-). now apply int_digits_text. Qed.

Lemma checked_inv (y m d : option Z) (dt : datetime) :
  checked y m d = Some dt ->
  y = Some (year dt) /\ m = Some (month dt) /\ d = Some (day dt)
  /\ valid_ymd (year dt) (month dt) (day dt) = true.
Proof.
  unfold checked. destruct y as [y|], m as [m|], d as [d|]; simpl; try discriminate.
  destruct (valid_ymd y m d) eqn:V; [|discriminate].
  now intros [= <-].
Qed.

Ltac peel s c := destruct s as [|c s]; [discriminate|]; simpl.

Lemma iso_date_shape (s : string) (dt : datetime) :
  iso_date_value s = Some dt ->
  exists ys ms ds,
    s = ys +:+ String "-" (ms +:+ String "-" ds)
    /\ iso_to_mint s = ms +:+ String "/" (ds +:+ String "/" ys)
    /\ field ys (year dt) /\ field ms (month dt) /\ field ds (day dt)
    /\ valid_ymd (year dt) (month dt) (day dt) = true.
Proof.
  unfold iso_date_value. intros Hs.
  peel s y1; peel s y2; peel s y3; peel s y4; peel s s1;
    peel s m1; peel s m2; peel s s2; peel s d1; peel s d2.
  destruct s; [|discriminate].
  destruct (Ascii.eqb_spec s1 "-") as [->|]; [|discriminate].
  destruct (Ascii.eqb_spec s2 "-") as [->|]; [|discriminate].
  apply checked_inv in Hs as (Hy & Hm & Hd & Hv).
  exists (String y1 (String y2 (String y3 (String y4 EmptyString)))),
         (String m1 (String m2 EmptyString)),
         (String d1 (String d2 EmptyString)).
  split; [reflexivity|]. split; [reflexivity|].
  split; [now apply field_four|].
  split; [now apply field_two|].
  split; [now apply field_two|assumption].
Qed.

Lemma mint_date_shape (s : string) (dt : datetime) :
  mint_date_value s = Some dt ->
  exists ms ds ys,
    s = ms +:+ String "/" (ds +:+ String "/" ys)
    /\ field ys (year dt) /\ field ms (month dt) /\ field ds (day dt)
    /\ valid_ymd (year dt) (month dt) (day dt) = true.
Proof.
  unfold mint_date_value. intros Hs.
  peel s m1; peel s m2; peel s s1; peel s d1; peel s d2; peel s s2;
    peel s y1; peel s y2; peel s y3; peel s y4.
  destruct s; [|discriminate].
  destruct (Ascii.eqb_spec s1 "/") as [->|]; [|discriminate].
  destruct (Ascii.eqb_spec s2 "/") as [->|]; [|discriminate].
  apply checked_inv in Hs as (Hy & Hm & Hd & Hv).
  exists (String m1 (String m2 EmptyString)),
         (String d1 (String d2 EmptyString)),
         (String y1 (String y2 (String y3 (String y4 EmptyString)))).
  split; [reflexivity|].
  split; [now apply field_four|].
  split; [now apply field_two|].
  split; [now apply field_two|assumption].
Qed.

(** ** [convert_robinhood_date] *)

Lemma digit_of_minus : digit_of "-" = None.
Proof. reflexivity. Qed.

Lemma digit_of_slash : digit_of "/" = None.
Proof. reflexivity. Qed.

Lemma split_three (sep : ascii) (a b c : string) :
  digit_of sep = None ->
  all_digits a = true -> all_digits b = true -> all_digits c = true ->
  split sep (a +:+ String sep (b +:+ String sep c)) = [a; b; c].
Proof.
  intros Hsep Ha Hb Hc.
  now rewrite !split_segment, (split_plain sep c) by assumption.
Qed.

Lemma convert_fields (ys ms ds : string) :
  all_digits ys = true -> all_digits ms = true -> all_digits ds = true ->
  convert_robinhood_date (ys +:+ String "-" (ms +:+ String "-" ds))
  = Ok (ms +:+ String "/" (ds +:+ String "/" ys)).
Proof.
  intros Hy Hm Hd. unfold convert_robinhood_date.
  now rewrite (split_three "-" ys ms ds digit_of_minus Hy Hm Hd).
Qed.

Lemma convert_back_fields (ys ms ds : string) :
  all_digits ys = true -> all_digits ms = true -> all_digits ds = true ->
  convert_mint_date (ms +:+ String "/" (ds +:+ String "/" ys))
  = Ok (ys +:+ String "-" (ms +:+ String "-" ds)).
Proof.
  intros Hy Hm Hd. unfold convert_mint_date.
  now rewrite (split_three "/" ms ds ys digit_of_slash Hm Hd Hy).
Qed.

Lemma parse_mint_date_fields (ys ms ds : string) (y m d : Z) :
  field ys y -> field ms m -> field ds d -> valid_ymd y m d = true ->
  parse_mint_date (ms +:+ String "/" (ds +:+ String "/" ys))
  = Ok (mk_datetime y m d).
Proof.
  intros Hy Hm Hd Hv. unfold parse_mint_date.
  rewrite (split_three "/" ms ds ys digit_of_slash
             (proj1 Hm) (proj1 Hd) (proj1 Hy)).
  simpl. rewrite (field_int _ _ Hy). simpl.
  rewrite (field_int _ _ Hm). simpl.
  rewrite (field_int _ _ Hd). simpl.
  unfold Datetime.new. now rewrite Hv.
Qed.

(** The reader of [filter_by_date] agrees with the positional reading of
    an ["MM/DD/YYYY"] text. *)
Lemma parse_mint_date_value (s : string) (dt : datetime) :
  mint_date_value s = Some dt -> parse_mint_date s = Ok dt.
Proof.
  intros Hs. apply mint_date_shape in Hs as (ms & ds & ys & -> & Hy & Hm & Hd & Hv).
  destruct dt as [y m d]. now apply parse_mint_date_fields.
Qed.

Lemma iso_to_mint_value (s : string) (dt : datetime) :
  iso_date_value s = Some dt -> mint_date_value (iso_to_mint s) = Some dt.
Proof.
  unfold iso_date_value. intros Hs.
  peel s y1; peel s y2; peel s y3; peel s y4; peel s s1;
    peel s m1; peel s m2; peel s s2; peel s d1; peel s d2.
  destruct s; [|discriminate].
  destruct (Ascii.eqb s1 "-" && Ascii.eqb s2 "-"); [|discriminate].
  exact Hs.
Qed.

Lemma convert_iso (s : string) (dt : datetime) :
  iso_date_value s = Some dt -> convert_robinhood_date s = Ok (iso_to_mint s).
Proof.
  intros Hs.
  apply iso_date_shape in Hs as (ys & ms & ds & Hshape & -> & Hy & Hm & Hd & _).
  rewrite Hshape. apply convert_fields; [apply Hy | apply Hm | apply Hd].
Qed.

(** C7. For every valid ISO date text ["YYYY-MM-DD"],
    [convert_robinhood_date] succeeds with the ["MM/DD/YYYY"] text of the
    same calendar date: the result denotes that date, the reader of
    [filter_by_date] reads that date back from it, and converting in the
    other direction returns the ISO text one started from. *)
Theorem convert_robinhood_date_roundtrip (s : string) (dt : datetime) :
  iso_date_value s = Some dt ->
  exists t,
    convert_robinhood_date s = Ok t
    /\ mint_date_value t = Some dt
    /\ parse_mint_date t = Ok dt
    /\ convert_mint_date t = Ok s.
Proof.
  intros Hs. exists (iso_to_mint s).
  split; [now apply (convert_iso s dt)|].
  pose proof (iso_to_mint_value s dt Hs) as Hv.
  split; [assumption|].
  split; [now apply parse_mint_date_value|].
  apply iso_date_shape in Hs as (ys & ms & ds & -> & -> & Hy & Hm & Hd & _).
  apply convert_back_fields; [apply Hy | apply Hm | apply Hd].
Qed.

Lemma convert_robinhood_date_roundtrip_witness :
  iso_date_value "2017-05-18" = Some (mk_datetime 2017 5 18)
  /\ exists t,
       convert_robinhood_date "2017-05-18" = Ok t
       /\ mint_date_value t = Some (mk_datetime 2017 5 18)
       /\ parse_mint_date t = Ok (mk_datetime 2017 5 18)
       /\ convert_mint_date t = Ok "2017-05-18".
Proof.
  split; [reflexivity|].
  apply (convert_robinhood_date_roundtrip "2017-05-18" (mk_datetime 2017 5 18)).
  reflexivity.
Defined.

Lemma getitem_short {A} (l : list A) (i : nat) :
  (length l <= i)%nat -> getitem l i = Raise IndexError.
Proof.
  intros Hl. unfold getitem. now rewrite (lookup_ge_None_2 l i Hl).
Qed.

(** C2, as the code has it.  A text with fewer than three ["-"]-separated
    segments is refused with [IndexError]; a text with three or more is
    accepted, the result being built from the first three segments and
    any further segment being dropped. *)
Theorem convert_robinhood_date_segments (s : string) :
  ((length (split "-" s) < 3)%nat ->
   convert_robinhood_date s = Raise IndexError)
  /\ ((3 <= length (split "-" s))%nat ->
      exists a b c rest,
        split "-" s = a :: b :: c :: rest
        /\ convert_robinhood_date s = Ok (join "/" [b; c; a])).
Proof.
  unfold convert_robinhood_date.
  destruct (split "-" s) as [|a [|b [|c rest]]]; simpl; split; intros Hl;
    try lia; try reflexivity.
  exists a, b, c, rest. now split.
Qed.

Lemma convert_robinhood_date_segments_witness :
  convert_robinhood_date "2017-05" = Raise IndexError
  /\ exists a b c rest,
       split "-" "2020-01-15-99" = a :: b :: c :: rest
       /\ convert_robinhood_date "2020-01-15-99" = Ok (join "/" [b; c; a]).
Proof.
  split.
  - apply (proj1 (convert_robinhood_date_segments "2017-05")). simpl. lia.
  - apply (proj2 (convert_robinhood_date_segments "2020-01-15-99")). simpl. lia.
Defined.

(** C2, as the specification words it, fails: this text splits into four
    segments, and it is converted, the fourth segment being dropped. *)
Lemma convert_robinhood_date_accepts_extra_segment :
  length (split "-" "2020-01-15-99") = 4%nat
  /\ convert_robinhood_date "2020-01-15-99" = Ok "01/15/2020".
Proof. split; reflexivity. Qed.

(** ** Calendar order *)

Lemma days_before_year_succ (y : Z) :
  days_before_year (y + 1)
  = days_before_year y + 365 + (if is_leap y then 1 else 0).
Proof.
  unfold days_before_year, is_leap.
  replace (y + 1 - 1) with y by lia.
  destruct (Z.eqb_spec (y mod 4) 0), (Z.eqb_spec (y mod 100) 0),
    (Z.eqb_spec (y mod 400) 0); simpl;
    Z.to_euclidean_division_equations; lia.
Qed.

Lemma days_before_year_mono (y1 y2 : Z) :
  y1 <= y2 -> days_before_year y1 <= days_before_year y2.
Proof.
  intros Hle. unfold days_before_year.
  Z.to_euclidean_division_equations. lia.
Qed.

Lemma valid_ymd_bounds (y m d : Z) :
  valid_ymd y m d = true ->
  1 <= y <= 9999 /\ 1 <= m <= 12 /\ 1 <= d <= days_in_month y m.
Proof. unfold valid_ymd. lia. Qed.

Ltac month_cases m :=
  let Hm := fresh "Hm" in
  assert (Hm : m = 1 \/ m = 2 \/ m = 3 \/ m = 4 \/ m = 5 \/ m = 6 \/ m = 7
               \/ m = 8 \/ m = 9 \/ m = 10 \/ m = 11 \/ m = 12) by lia;
  destruct Hm as [->|[->|[->|[->|[->|[->|[->|[->|[->|[->|[->| ->]]]]]]]]]]].

Ltac month_table :=
  repeat match goal with
         | |- context [days_before_month ?y ?m] =>
             let k := eval vm_compute in (Z.to_nat (m - 1)) in
             change (days_before_month y m) with (days_before_month_aux y k)
         end;
  cbv [days_before_month_aux Z.of_nat Pos.of_succ_nat Pos.succ];
  unfold days_in_month; simpl.

(** Day of the year, by month, against the leap day. *)
Lemma day_of_year_bounds (y m d : Z) :
  valid_ymd y m d = true ->
  1 <= days_before_month y m + d <= 365 + (if is_leap y then 1 else 0).
Proof.
  intros Hv. apply valid_ymd_bounds in Hv as (_ & Hm & Hd).
  month_cases m; revert Hd; month_table;
    destruct (is_leap y); lia.
Qed.

Lemma day_of_year_month_lt (y m1 d1 m2 d2 : Z) :
  valid_ymd y m1 d1 = true -> valid_ymd y m2 d2 = true -> m1 < m2 ->
  days_before_month y m1 + d1 < days_before_month y m2 + d2.
Proof.
  intros H1 H2 Hlt.
  apply valid_ymd_bounds in H1 as (_ & Hm1 & Hd1).
  apply valid_ymd_bounds in H2 as (_ & Hm2 & Hd2).
  month_cases m1; month_cases m2; try lia;
    revert Hd1 Hd2; month_table;
    destruct (is_leap y); lia.
Qed.

Lemma toordinal_year_lt (a b : datetime) :
  valid_ymd (year a) (month a) (day a) = true ->
  valid_ymd (year b) (month b) (day b) = true ->
  year a < year b -> toordinal a < toordinal b.
Proof.
  intros Ha Hb Hlt. unfold toordinal.
  pose proof (day_of_year_bounds _ _ _ Ha) as Da.
  pose proof (day_of_year_bounds _ _ _ Hb) as Db.
  pose proof (days_before_year_succ (year a)) as Hs.
  pose proof (days_before_year_mono (year a + 1) (year b) ltac:(lia)) as Hm.
  lia.
Qed.

(** On dates the constructor accepts, the tuple comparison of [datetime]
    is the order of the calendar. *)
Lemma gt_later (a b : datetime) :
  valid_ymd (year a) (month a) (day a) = true ->
  valid_ymd (year b) (month b) (day b) = true ->
  Datetime.gt a b = later a b.
Proof.
  intros Ha Hb. unfold Datetime.gt, later.
  destruct (Z.lt_trichotomy (year a) (year b)) as [Hy|[Hy|Hy]].
  - pose proof (toordinal_year_lt a b Ha Hb Hy). lia.
  - destruct (Z.lt_trichotomy (month a) (month b)) as [Hm|[Hm|Hm]].
    + rewrite <- Hy in Hb.
      pose proof (day_of_year_month_lt _ _ _ _ _ Ha Hb Hm).
      unfold toordinal. rewrite <- Hy. lia.
    + unfold toordinal. rewrite <- Hy, <- Hm. lia.
    + rewrite Hy in Ha.
      pose proof (day_of_year_month_lt _ _ _ _ _ Hb Ha Hm).
      unfold toordinal. rewrite Hy. lia.
  - pose proof (toordinal_year_lt b a Hb Ha Hy). lia.
Qed.

(** ** [filter_by_date] *)

Lemma mint_date_value_valid (s : string) (dt : datetime) :
  mint_date_value s = Some dt ->
  valid_ymd (year dt) (month dt) (day dt) = true.
Proof.
  intros Hs. now apply mint_date_shape in Hs as (? & ? & ? & _ & _ & _ & _ & Hv).
Qed.

Lemma filter_step_later {Row} (key : Row -> string) (cutoff : string)
    (D dt : datetime) (r : Row) (acc : list Row) :
  mint_date_value cutoff = Some D ->
  mint_date_value (key r) = Some dt ->
  filter_step key D r acc
  = Ok (if later_text (key r) cutoff then acc ++ [r] else acc)%list.
Proof.
  intros HD Hr. unfold filter_step, later_text.
  rewrite (parse_mint_date_value _ _ Hr), Hr, HD. simpl.
  now rewrite (gt_later dt D (mint_date_value_valid _ _ Hr)
                 (mint_date_value_valid _ _ HD)).
Qed.

Lemma filter_loop {Row} (key : Row -> string) (cutoff : string) (D : datetime)
    (rows acc : list Row) :
  mint_date_value cutoff = Some D ->
  Forall (fun r => is_Some (mint_date_value (key r))) rows ->
  for_each (filter_step key D) rows acc
  = Ok (acc ++ List.filter (fun r => later_text (key r) cutoff) rows)%list.
Proof.
  intros HD Hrows. revert acc.
  induction Hrows as [|r rows [dt Hr] _ IH]; intros acc; simpl.
  - now rewrite app_nil_r.
  - rewrite (filter_step_later key cutoff D dt r acc HD Hr). simpl.
    rewrite IH. destruct (later_text (key r) cutoff); [|reflexivity].
    now rewrite <- app_assoc.
Qed.

(** C3. For a cutoff in ["MM/DD/YYYY"] form and rows whose dates are all in
    that form, [filter_by_date] succeeds and returns exactly the rows whose
    calendar day is strictly later than the cutoff's, in their original
    order.  A row dated on the cutoff day is dropped, and the comparison
    counts days, it does not compare texts. *)
Theorem filter_by_date_later {Row} (key : Row -> string) (cutoff : string)
    (rows : list Row) :
  is_Some (mint_date_value cutoff) ->
  Forall (fun r => is_Some (mint_date_value (key r))) rows ->
  filter_by_date key cutoff rows
  = Ok (List.filter (fun r => later_text (key r) cutoff) rows)
  /\ Forall (fun r => key r = cutoff -> later_text (key r) cutoff = false) rows.
Proof.
  intros [D HD] Hrows. split.
  - unfold filter_by_date. rewrite (parse_mint_date_value _ _ HD). simpl.
    now rewrite (filter_loop key cutoff D rows [] HD Hrows).
  - apply Forall_forall. intros r _ ->.
    unfold later_text, later. rewrite HD. lia.
Qed.

Lemma filter_by_date_later_witness :
  filter_by_date Date "05/18/2017" Sample.rows
  = Ok (List.filter (fun r => later_text (Date r) "05/18/2017") Sample.rows)
  /\ Forall (fun r => Date r = "05/18/2017" ->
                      later_text (Date r) "05/18/2017" = false) Sample.rows.
Proof.
  apply (filter_by_date_later Date "05/18/2017" Sample.rows).
  - exists (mk_datetime 2017 5 18). reflexivity.
  - repeat constructor; eexists; reflexivity.
Defined.

(** The cutoff day itself and an earlier day whose text sorts after the
    cutoff's are both dropped. *)
Example filter_sample :
  filter_by_date Date "05/18/2017" Sample.rows
  = Ok [Sample.row "01/01/2018" "KO" "0.39"].
Proof. reflexivity. Qed.

(** ** Running programs *)

Lemma run_bind {A B} (m : IO A) (f : A -> IO B) (w : world) :
  run (m ≫= f) w
  = match run m w with
    | (Ok a, w') => run (f a) w'
    | (Raise e, w') => (Raise e, w')
    end.
Proof. reflexivity. Qed.

Lemma io_eq_refl {A} (m : IO A) : io_eq m m.
Proof. intros w. reflexivity. Qed.

Lemma io_eq_bind {A B} (m1 m2 : IO A) (f1 f2 : A -> IO B) :
  io_eq m1 m2 -> (forall a, io_eq (f1 a) (f2 a)) ->
  io_eq (m1 ≫= f1) (m2 ≫= f2).
Proof.
  intros Hm Hf w. rewrite !run_bind, (Hm w).
  destruct (run m2 w) as [[a|e] w']; [apply Hf | reflexivity].
Qed.

(** Elements on which the body does nothing can be left out of a loop. *)
Lemma io_for_each_filter {A S} (body : A -> S -> IO S) (keep : A -> bool) :
  (forall x acc, keep x = false -> io_eq (body x acc) (mret acc)) ->
  forall xs acc,
    io_eq (io_for_each body xs acc) (io_for_each body (List.filter keep xs) acc).
Proof.
  intros Hskip xs. induction xs as [|x xs IH]; intros acc w; [reflexivity|].
  cbn [io_for_each List.filter]. destruct (keep x) eqn:Hk.
  - cbn [io_for_each]. rewrite !run_bind.
    destruct (run (body x acc) w) as [[acc'|e] w']; [apply IH | reflexivity].
  - rewrite run_bind, (Hskip x acc Hk w).
    change (run (mret acc) w) with (Ok acc, w). apply IH.
Qed.

Section ScriptProperties.

Context `{PyFloat}.

(** *** [write_csv] *)

(** C4. Whatever the header and the rows, [write_csv] on a path whose
    extension is not [".csv"] raises [AssertionError] and leaves the
    world as it found it: nothing is opened, created or written. *)
Theorem write_csv_wrong_extension (header : list string)
    (data : list mint_row) (output_path : string) (w : world) :
  snd (OsPath.splitext output_path) <> ".csv" ->
  run (write_csv header data output_path) w = (Raise AssertionError, w).
Proof.
  intros Hext. unfold write_csv. rewrite run_bind.
  destruct (String.eqb_spec (snd (OsPath.splitext output_path)) ".csv")
    as [Heq|_]; [contradiction | reflexivity].
Qed.

(** *** [get_robinhood_dividend_data] *)

Lemma dividend_record_falsy (api : Robinhood) (d : dividend)
    (acc : list dividend_datum) :
  truthy_opt_str (paid_at d) = false ->
  io_eq (dividend_record api d acc) (mret acc).
Proof. intros Hp w. unfold dividend_record. now rewrite Hp. Qed.

Lemma dividend_data_filter (api : Robinhood) (ds : list dividend)
    (keep : dividend -> bool) :
  (forall d, keep d = false -> truthy_opt_str (paid_at d) = false) ->
  io_eq (get_robinhood_dividend_data (with_dividends api ds))
        (get_robinhood_dividend_data
           (with_dividends api (List.filter keep ds))).
Proof.
  intros Hk w. unfold get_robinhood_dividend_data. rewrite !run_bind.
  change (run (api_dividends (with_dividends api ds)) w)
    with (Ok ds, mk_world (log w ++ [CallDividends])%list (files w)).
  change (run (api_dividends (with_dividends api (List.filter keep ds))) w)
    with (Ok (List.filter keep ds),
          mk_world (log w ++ [CallDividends])%list (files w)).
  change (dividend_record (with_dividends api ds))
    with (dividend_record api).
  change (dividend_record (with_dividends api (List.filter keep ds)))
    with (dividend_record api).
  apply (io_for_each_filter (dividend_record api) keep).
  intros d acc Hd. apply dividend_record_falsy. now apply Hk.
Qed.

Lemma dividend_data_same_settled (api : Robinhood) (l1 l2 : list dividend) :
  List.filter (fun d => truthy_opt_str (paid_at d)) l1
  = List.filter (fun d => truthy_opt_str (paid_at d)) l2 ->
  io_eq (get_robinhood_dividend_data (with_dividends api l1))
        (get_robinhood_dividend_data (with_dividends api l2)).
Proof.
  intros Hl w.
  rewrite (dividend_data_filter api l1 (fun d => truthy_opt_str (paid_at d)))
    by auto.
  rewrite (dividend_data_filter api l2 (fun d => truthy_opt_str (paid_at d)))
    by auto.
  now rewrite Hl.
Qed.

(** C9. A dividend whose [paid_at] is the empty text is left out of the
    export: the fetcher behaves, in every world, as if the record were
    not in the reply at all, and as if its [paid_at] were [null]. *)
Theorem empty_paid_at_excluded (api : Robinhood) (pre post : list dividend)
    (d : dividend) (w : world) :
  run (get_robinhood_dividend_data
         (with_dividends api (pre ++ with_paid_at d (Some "") :: post))) w
  = run (get_robinhood_dividend_data (with_dividends api (pre ++ post))) w
  /\ run (get_robinhood_dividend_data
            (with_dividends api (pre ++ with_paid_at d (Some "") :: post))) w
     = run (get_robinhood_dividend_data
              (with_dividends api (pre ++ with_paid_at d None :: post))) w.
Proof.
  split; apply dividend_data_same_settled;
    rewrite !List.filter_app; reflexivity.
Qed.

(** *** The whole run *)

Lemma with_dividends_id (api : Robinhood) (ds : list dividend) :
  dividends api = Ok ds -> with_dividends api ds = api.
Proof. destruct api; simpl; intros ->; reflexivity. Qed.

Lemma main_dividends_ext (a : args) (api : Robinhood) (l1 l2 : list dividend) :
  io_eq (get_robinhood_dividend_data (with_dividends api l1))
        (get_robinhood_dividend_data (with_dividends api l2)) ->
  io_eq (main a (with_dividends api l1)) (main a (with_dividends api l2)).
Proof.
  intros Hd. unfold main. cbv zeta.
  apply io_eq_bind; [apply io_eq_refl|]. intros _.
  apply io_eq_bind; [apply io_eq_refl|]. intros _.
  apply io_eq_bind; [|intros; apply io_eq_refl].
  destruct (truthy_default_true (arg_dividends a)); [|apply io_eq_refl].
  apply io_eq_bind; [exact Hd | intros; apply io_eq_refl].
Qed.

Lemma script_ext (a : args) (api1 api2 : Robinhood) :
  io_eq (main a api1) (main a api2) ->
  forall w, script a api1 w = script a api2 w.
Proof. intros Hm w. unfold script. now rewrite (Hm w). Qed.

Lemma dividend_loop_settled (api : Robinhood) (ds : list dividend) :
  forall (acc out : list dividend_datum) (w w' : world),
    run (io_for_each (dividend_record api) ds acc) w = (Ok out, w') ->
    exists new,
      out = (acc ++ new)%list
      /\ Forall2 (fun o d => not_null d = true
                            /\ dividend_amount o = amount d
                            /\ dividend_Date o = payable_date d)
           new (List.filter (fun d => truthy_opt_str (paid_at d)) ds).
Proof.
  induction ds as [|d ds IH]; intros acc out w w' Hrun.
  - injection Hrun as <- _. exists []. now rewrite app_nil_r.
  - cbn [io_for_each List.filter] in *. rewrite run_bind in Hrun.
    unfold dividend_record at 1 in Hrun.
    destruct (truthy_opt_str (paid_at d)) eqn:Hp.
    + rewrite run_bind in Hrun.
      destruct (run (api_get_custom_endpoint api (dividend_instrument d)) w)
        as [[ticker|e] w1]; [|discriminate].
      apply IH in Hrun as (new & -> & Hnew).
      eexists (_ :: new). split; [now rewrite <- app_assoc|].
      constructor; [|exact Hnew]. simpl. repeat split.
      unfold not_null. now destruct (paid_at d).
    + now apply IH in Hrun.
Qed.

(** C5. A dividend whose [paid_at] is [null] never reaches the output.
    The whole run (terminal, requests, files written, exit status) is
    the one the script would make if the reply held only the records
    with a non-null [paid_at]; and the records the fetcher hands on stand
    one to one, in order, for records of the reply whose [paid_at] is
    not [null]. *)
Theorem null_paid_at_never_exported (a : args) (api : Robinhood)
    (ds : list dividend) (w : world) :
  dividends api = Ok ds ->
  script a api w = script a (with_dividends api (List.filter not_null ds)) w
  /\ forall out w',
       run (get_robinhood_dividend_data api) w = (Ok out, w') ->
       Forall2 (fun o d => not_null d = true
                           /\ dividend_amount o = amount d
                           /\ dividend_Date o = payable_date d)
         out (List.filter (fun d => truthy_opt_str (paid_at d)) ds).
Proof.
  intros Hds. split.
  - rewrite <- (with_dividends_id api ds Hds) at 1.
    apply script_ext, main_dividends_ext, dividend_data_filter.
    intros d. unfold not_null. now destruct (paid_at d).
  - intros out w' Hrun. unfold get_robinhood_dividend_data in Hrun.
    rewrite run_bind in Hrun. unfold api_dividends in Hrun.
    rewrite run_bind, Hds in Hrun. cbn in Hrun.
    now apply dividend_loop_settled in Hrun as (new & -> & Hnew).
Qed.

(** *** [parse_robinhood_data_to_mint] *)

Lemma result_bind_ok {A} (r : result A) : (r ≫= Ok) = r.
Proof. now destruct r. Qed.

(** Guarding a loop by the truth value of its list changes nothing: on
    the empty list the loop does nothing anyway. *)
Lemma loop_if_truthy {A S} (body : A -> S -> result S) (l : list A) (acc : S) :
  (if truthy_opt_list (Some l)
   then for_each body (default [] (Some l)) acc
   else Ok acc)
  = for_each body l acc.
Proof. now destruct l. Qed.


Lemma trade_line_row (t : trade_datum) (pq : float * float)
    (acc : list mint_row) :
  fetched_trade t pq ->
  trade_line t acc = Ok (acc ++ [trade_output_row t pq])%list.
Proof.
  intros ([dt Hdt] & _ & _ & Hcost). unfold trade_line, trade_output_row.
  rewrite (convert_iso _ _ Hdt), Hcost. reflexivity.
Qed.

Lemma dividend_line_row (d : dividend_datum) (a : float)
    (acc : list mint_row) :
  fetched_dividend d a ->
  dividend_line d acc = Ok (acc ++ [dividend_output_row d a])%list.
Proof.
  intros ([dt Hdt] & Ha). unfold dividend_line, dividend_output_row.
  rewrite (convert_iso _ _ Hdt). cbn. rewrite Ha. reflexivity.
Qed.

Lemma trade_loop_rows (ts : list trade_datum) (tnum : list (float * float)) :
  Forall2 fetched_trade ts tnum ->
  forall acc,
    for_each trade_line ts acc
    = Ok (acc ++ zip_with trade_output_row ts tnum)%list.
Proof.
  induction 1 as [|t pq ts tnum Ht _ IH]; intros acc; cbn.
  - now rewrite app_nil_r.
  - rewrite (trade_line_row t pq acc Ht). cbn. rewrite IH.
    now rewrite <- app_assoc.
Qed.

Lemma dividend_loop_rows (ds : list dividend_datum) (dnum : list float) :
  Forall2 fetched_dividend ds dnum ->
  forall acc,
    for_each dividend_line ds acc
    = Ok (acc ++ zip_with dividend_output_row ds dnum)%list.
Proof.
  induction 1 as [|d a ds dnum Hd _ IH]; intros acc; cbn.
  - now rewrite app_nil_r.
  - rewrite (dividend_line_row d a acc Hd). cbn. rewrite IH.
    now rewrite <- app_assoc.
Qed.

(** C6. On trades and dividends as the two fetchers build them, with ISO
    dates, [parse_robinhood_data_to_mint] returns the rows of the
    specification: first one row per trade, then one row per dividend,
    each group in source order.  A trade's row carries its date as
    ["MM/DD/YYYY"], its ticker, ["Investments:" + side],
    [round(price * quantity, 2)], the side, the quantity and the price. *)
Theorem parse_robinhood_data_to_mint_rows (ts : list trade_datum)
    (tnum : list (float * float)) (ds : list dividend_datum)
    (dnum : list float) :
  Forall2 fetched_trade ts tnum ->
  Forall2 fetched_dividend ds dnum ->
  parse_robinhood_data_to_mint (Some ts) (Some ds)
  = Ok (zip_with trade_output_row ts tnum
        ++ zip_with dividend_output_row ds dnum)%list.
Proof.
  intros Hts Hds. unfold parse_robinhood_data_to_mint.
  rewrite loop_if_truthy, (trade_loop_rows ts tnum Hts []).
  change (Ok ?x ≫= ?f) with (f x). cbv beta.
  rewrite loop_if_truthy, (dividend_loop_rows ds dnum Hds).
  reflexivity.
Qed.

(** *** [get_robinhood_trade_data] builds what the normalizer expects *)

Lemma run_lift_ok {A} (r : result A) (a : A) (w w' : world) :
  run (lift r) w = (Ok a, w') -> r = Ok a /\ w' = w.
Proof. unfold lift. cbn. now intros [= -> ->]. Qed.

Ltac run_step H E :=
  rewrite run_bind in H;
  match type of H with
  | match run ?m ?w with _ => _ end = _ =>
      destruct (run m w) as [[?|?] ?] eqn:E; [|discriminate H]
  end.

Lemma trade_order_priced (api : Robinhood) (o : order)
    (acc out : list trade_datum) (w w' : world) :
  Forall priced acc ->
  run (trade_order api o acc) w = (Ok out, w') ->
  Forall priced out.
Proof.
  intros Hacc Hrun. unfold trade_order in Hrun.
  run_step Hrun E1. run_step Hrun E2.
  destruct (0 <? length (executions o))%nat.
  - run_step Hrun E3. run_step Hrun E4. run_step Hrun E5. run_step Hrun E6.
    apply run_lift_ok in E5 as [E5 _]. apply run_lift_ok in E6 as [E6 _].
    injection Hrun as <- _.
    apply Forall_app. split; [assumption|].
    constructor; [|constructor].
    eexists (_, _). cbn. repeat split; eassumption.
  - injection Hrun as <- _. assumption.
Qed.

Lemma trade_loop_priced (api : Robinhood) (orders : list order) :
  forall (acc out : list trade_datum) (w w' : world),
    Forall priced acc ->
    run (io_for_each (trade_order api) orders acc) w = (Ok out, w') ->
    Forall priced out.
Proof.
  induction orders as [|o orders IH]; intros acc out w w' Hacc Hrun.
  - injection Hrun as <- _. assumption.
  - cbn [io_for_each] in Hrun. run_step Hrun E.
    eapply IH; [|exact Hrun].
    eapply trade_order_priced; eassumption.
Qed.

(** Every trade the fetcher returns carries, as its cost, the product of
    its price and its quantity read as floats. *)
Lemma get_robinhood_trade_data_priced (api : Robinhood)
    (out : list trade_datum) (w w' : world) :
  run (get_robinhood_trade_data api) w = (Ok out, w') ->
  Forall priced out.
Proof.
  intros Hrun. unfold get_robinhood_trade_data in Hrun.
  run_step Hrun E.
  eapply trade_loop_priced; [constructor | exact Hrun].
Qed.

End ScriptProperties.

(** ** Further properties of the fetchers *)

Lemma run_emit (ev : event) (w : world) :
  run (emit ev) w = (Ok tt, mk_world (log w ++ [ev])%list (files w)).
Proof. reflexivity. Qed.

Lemma run_lift {A} (r : result A) (w : world) : run (lift r) w = (r, w).
Proof. reflexivity. Qed.

Lemma run_ret {A} (a : A) (w : world) : run (mret a) w = (Ok a, w).
Proof. reflexivity. Qed.

Lemma keeps_files_ret {A} (a : A) : keeps_files (mret a : IO A).
Proof. intros w. reflexivity. Qed.

Lemma keeps_files_lift {A} (r : result A) : keeps_files (lift r).
Proof. intros w. reflexivity. Qed.

Lemma keeps_files_emit (ev : event) : keeps_files (emit ev).
Proof. intros w. reflexivity. Qed.

Lemma keeps_files_bind {A B} (m : IO A) (f : A -> IO B) :
  keeps_files m -> (forall a, keeps_files (f a)) -> keeps_files (m ≫= f).
Proof.
  intros Hm Hf w. rewrite run_bind. specialize (Hm w).
  destruct (run m w) as [[a|e] w1]; cbn [snd] in *.
  - now rewrite (Hf a w1).
  - exact Hm.
Qed.

Lemma keeps_files_for_each {A S} (body : A -> S -> IO S) (xs : list A) :
  (forall x acc, keeps_files (body x acc)) ->
  forall acc, keeps_files (io_for_each body xs acc).
Proof.
  intros Hbody. induction xs as [|x xs IH]; intros acc; cbn [io_for_each].
  - apply keeps_files_ret.
  - apply keeps_files_bind; [apply Hbody | exact IH].
Qed.

Ltac keeps :=
  repeat first
    [ apply keeps_files_ret | apply keeps_files_lift | apply keeps_files_emit
    | apply keeps_files_bind; [|intros] ].

Section FetcherProperties.

Context `{PyFloat}.

Lemma keeps_files_endpoint (api : Robinhood) (url : string) :
  keeps_files (api_get_custom_endpoint api url).
Proof. unfold api_get_custom_endpoint. keeps. Qed.

Lemma keeps_files_trade_order (api : Robinhood) (o : order)
    (acc : list trade_datum) :
  keeps_files (trade_order api o acc).
Proof.
  unfold trade_order.
  apply keeps_files_bind; [apply keeps_files_endpoint|]. intros ticker.
  apply keeps_files_bind; [apply keeps_files_emit|]. intros _.
  destruct (0 <? length (executions o))%nat; keeps.
Qed.

Lemma keeps_files_dividend_record (api : Robinhood) (d : dividend)
    (acc : list dividend_datum) :
  keeps_files (dividend_record api d acc).
Proof.
  unfold dividend_record. destruct (truthy_opt_str (paid_at d)); [|keeps].
  apply keeps_files_bind; [apply keeps_files_endpoint|]. intros ticker. keeps.
Qed.

Lemma fetchers_keep_files_trade (api : Robinhood) :
  keeps_files (get_robinhood_trade_data api).
Proof.
  unfold get_robinhood_trade_data, api_order_history.
  apply keeps_files_bind; [keeps|]. intros orders.
  apply keeps_files_for_each. intros o acc. apply keeps_files_trade_order.
Qed.

Lemma fetchers_keep_files_div (api : Robinhood) :
  keeps_files (get_robinhood_dividend_data api).
Proof.
  unfold get_robinhood_dividend_data, api_dividends.
  apply keeps_files_bind; [keeps|]. intros ds.
  apply keeps_files_for_each. intros d acc. apply keeps_files_dividend_record.
Qed.

(** X5. Neither fetcher creates, empties or writes a file, whether it
    returns or raises. *)
Theorem fetchers_keep_files (api : Robinhood) :
  keeps_files (get_robinhood_trade_data api)
  /\ keeps_files (get_robinhood_dividend_data api).
Proof.
  split; [apply fetchers_keep_files_trade | apply fetchers_keep_files_div].
Qed.

End FetcherProperties.

Lemma logged_logged (w : world) (e1 e2 : list event) :
  logged (logged w e1) e2 = logged w (e1 ++ e2).
Proof. unfold logged. cbn. now rewrite app_assoc. Qed.

Lemma logged_nil (w : world) : logged w [] = w.
Proof. destruct w. unfold logged. cbn. now rewrite app_nil_r. Qed.

Lemma split_nonempty (sep : ascii) (s : string) :
  exists h t, split sep s = h :: t.
Proof.
  induction s as [|c s (h & t & IH)]; cbn; [eauto|].
  destruct (Ascii.eqb c sep); [eauto|]. rewrite IH. eauto.
Qed.

Lemma io_for_each_map {A S} (body : A -> S -> IO S) (g : A -> A) :
  (forall x acc, io_eq (body (g x) acc) (body x acc)) ->
  forall xs acc,
    io_eq (io_for_each body (map g xs) acc) (io_for_each body xs acc).
Proof.
  intros Hg xs. induction xs as [|x xs IH]; intros acc w; [reflexivity|].
  cbn [map io_for_each]. rewrite !run_bind, (Hg x acc w).
  destruct (run (body x acc) w) as [[acc'|e] w']; [apply IH | reflexivity].
Qed.

Section TradeFetcher.

Context `{PyFloat}.

(** One turn of the loop over the orders, case by case. *)
Lemma trade_order_step (api : Robinhood) (o : order) (acc : list trade_datum)
    (w : world) :
  run (trade_order api o acc) w
  = match get_custom_endpoint api (order_instrument o) with
    | Raise x => (Raise x, logged w (order_log api o))
    | Ok ticker =>
        match executions o with
        | [] => (Ok acc, logged w (order_log api o))
        | e :: _ =>
            match float_of_str (price e) with
            | Raise x => (Raise x, logged w (order_log api o))
            | Ok p =>
                match float_of_str (quantity e) with
                | Raise x => (Raise x, logged w (order_log api o))
                | Ok q =>
                    (Ok (acc ++
                         [{| trade_ticker := ticker;
                             trade_side := side o;
                             trade_quantity := quantity e;
                             trade_price := price e;
                             trade_Date := hd "" (split "T" (timestamp e));
                             trade_cost := float_mul p q |}])%list,
                     logged w (order_log api o))
                end
            end
        end
    end.
Proof.
  unfold trade_order, api_get_custom_endpoint, order_log, logged.
  rewrite !run_bind, run_emit, run_lift.
  destruct (get_custom_endpoint api (order_instrument o)) as [ticker|x];
    [|reflexivity].
  rewrite run_bind, run_emit. cbn [log files].
  rewrite <- app_assoc. cbn [app].
  destruct (executions o) as [|e rest]; [reflexivity|].
  cbn [length Nat.ltb Nat.leb]. rewrite run_bind, run_lift.
  change (getitem (e :: rest) 0) with (Ok e). cbv beta iota.
  rewrite run_bind, run_lift.
  destruct (split_nonempty "T" (timestamp e)) as (h & t & Hs).
  rewrite Hs. change (getitem (h :: t) 0) with (Ok h). cbn [hd]. cbv beta iota.
  rewrite run_bind, run_lift.
  destruct (float_of_str (price e)); [|reflexivity]. cbv beta iota.
  rewrite run_bind, run_lift.
  destruct (float_of_str (quantity e)); reflexivity.
Qed.

Lemma trade_loop_inv (api : Robinhood) (orders : list order) :
  forall (acc out : list trade_datum) (w w' : world),
    run (io_for_each (trade_order api) orders acc) w = (Ok out, w') ->
    forallb (order_ok api) orders = true
    /\ w' = logged w (flat_map (order_log api) orders)
    /\ exists new,
         out = (acc ++ new)%list
         /\ Forall2 (trade_from api) new (List.filter executed orders).
Proof.
  induction orders as [|o orders IH]; intros acc out w w' Hrun.
  - injection Hrun as <- <-. rewrite logged_nil.
    repeat split. exists []. now rewrite app_nil_r.
  - cbn [io_for_each] in Hrun. rewrite run_bind, trade_order_step in Hrun.
    cbn [forallb flat_map List.filter]. unfold order_ok at 1, executed at 1.
    destruct (get_custom_endpoint api (order_instrument o)) as [ticker|x] eqn:Et;
      [|discriminate].
    destruct (executions o) as [|e rest] eqn:Ee.
    + apply IH in Hrun as (Hok & -> & new & -> & Hnew).
      rewrite logged_logged. repeat split; [exact Hok|]. now exists new.
    + destruct (float_of_str (price e)) as [p|x] eqn:Ep; [|discriminate].
      destruct (float_of_str (quantity e)) as [q|x] eqn:Eq; [|discriminate].
      apply IH in Hrun as (Hok & -> & new & -> & Hnew).
      rewrite logged_logged. repeat split; [exact Hok|].
      eexists (_ :: new). split; [now rewrite <- app_assoc|].
      constructor; [|exact Hnew].
      destruct (split_nonempty "T" (timestamp e)) as (h & t & Hs).
      exists e, rest, t. rewrite Hs. cbn. repeat split; assumption.
Qed.

Lemma trade_loop_ok (api : Robinhood) (orders : list order) :
  forallb (order_ok api) orders = true ->
  forall (acc : list trade_datum) (w : world),
    exists out w', run (io_for_each (trade_order api) orders acc) w = (Ok out, w').
Proof.
  induction orders as [|o orders IH]; intros Hok acc w.
  - exists acc, w. reflexivity.
  - cbn [forallb] in Hok. apply andb_true_iff in Hok as [Ho Hok].
    cbn [io_for_each]. rewrite run_bind, trade_order_step.
    unfold order_ok in Ho. apply andb_true_iff in Ho as [Ht He].
    destruct (get_custom_endpoint api (order_instrument o)); [|discriminate].
    destruct (executions o) as [|e rest]; [now apply IH|].
    apply andb_true_iff in He as [Hp Hq].
    destruct (float_of_str (price e)); [|discriminate].
    destruct (float_of_str (quantity e)); [|discriminate].
    now apply IH.
Qed.

Lemma run_order_history (api : Robinhood) (w : world) :
  run (api_order_history api) w
  = (order_history api, logged w [CallOrderHistory]).
Proof. reflexivity. Qed.

(** X1. Only the first execution of an order is read: the fetcher runs
    the same, in every world, when every further execution is removed
    from the reply. *)
Theorem trade_data_first_execution_only (api : Robinhood) (orders : list order) :
  io_eq (get_robinhood_trade_data (with_orders api orders))
        (get_robinhood_trade_data (with_orders api (map first_only orders))).
Proof.
  intros w. unfold get_robinhood_trade_data.
  rewrite !run_bind, !run_order_history. cbn [order_history with_orders].
  change (trade_order (with_orders api orders)) with (trade_order api).
  change (trade_order (with_orders api (map first_only orders)))
    with (trade_order api).
  symmetry. apply io_for_each_map. clear w. intros o acc w.
  rewrite !trade_order_step. unfold order_log, first_only. cbn.
  destruct (get_custom_endpoint api (order_instrument o)); [|reflexivity].
  now destruct (executions o).
Qed.

(** X2. The trade fetcher returns a result exactly when every order's
    instrument resolves, executed or not, and the price and quantity of
    every executed order's first execution are accepted by [float]. *)
Theorem trade_data_succeeds_iff (api : Robinhood) (orders : list order)
    (w : world) :
  order_history api = Ok orders ->
  (exists out w', run (get_robinhood_trade_data api) w = (Ok out, w'))
  <-> forallb (order_ok api) orders = true.
Proof.
  intros Ho. unfold get_robinhood_trade_data.
  rewrite run_bind, run_order_history, Ho. split.
  - intros (out & w' & Hrun). now apply trade_loop_inv in Hrun as (Hok & _).
  - intros Hok. now apply trade_loop_ok.
Qed.

(** X3. The trades the fetcher returns stand one to one, in order, for
    the orders with at least one execution: each carries the ticker of the
    order's instrument, the order's side, the quantity and price of the
    first execution, and as date the timestamp of that execution up to
    its first ["T"]. *)
Theorem trade_data_executed_orders (api : Robinhood) (orders : list order)
    (out : list trade_datum) (w w' : world) :
  order_history api = Ok orders ->
  run (get_robinhood_trade_data api) w = (Ok out, w') ->
  Forall2 (trade_from api) out (List.filter executed orders).
Proof.
  intros Ho Hrun. unfold get_robinhood_trade_data in Hrun.
  rewrite run_bind, run_order_history, Ho in Hrun.
  now apply trade_loop_inv in Hrun as (_ & _ & new & -> & Hnew).
Qed.

(** X4. A successful trade fetch asks for the order history once and then
    resolves the instrument of every order, one request per order in the
    order of the reply, printing each ticker; an instrument that occurs
    in several orders is requested again each time. *)
Theorem trade_data_requests (api : Robinhood) (orders : list order)
    (out : list trade_datum) (w w' : world) :
  order_history api = Ok orders ->
  run (get_robinhood_trade_data api) w = (Ok out, w') ->
  w' = logged w (CallOrderHistory :: flat_map (order_log api) orders)
  /\ length (List.filter
               (fun ev => match ev with CallCustomEndpoint _ => true | _ => false end)
               (flat_map (order_log api) orders))
     = length orders.
Proof.
  intros Ho Hrun. unfold get_robinhood_trade_data in Hrun.
  rewrite run_bind, run_order_history, Ho in Hrun.
  apply trade_loop_inv in Hrun as (_ & -> & _). split.
  - now rewrite logged_logged.
  - clear. induction orders as [|o orders IH]; [reflexivity|].
    cbn [flat_map]. rewrite List.filter_app, length_app, IH.
    unfold order_log.
    now destruct (get_custom_endpoint api (order_instrument o)).
Qed.

End TradeFetcher.

Section DividendFetcher.

Context `{PyFloat}.

Lemma dividend_record_step (api : Robinhood) (d : dividend)
    (acc : list dividend_datum) (w : world) :
  run (dividend_record api d acc) w
  = if paid d then
      match get_custom_endpoint api (dividend_instrument d) with
      | Ok ticker =>
          (Ok (acc ++ [{| dividend_amount := amount d;
                          dividend_Date := payable_date d;
                          dividend_ticker := ticker |}])%list,
           logged w [CallCustomEndpoint (dividend_instrument d)])
      | Raise x => (Raise x, logged w [CallCustomEndpoint (dividend_instrument d)])
      end
    else (Ok acc, w).
Proof.
  unfold dividend_record, paid, api_get_custom_endpoint.
  destruct (truthy_opt_str (paid_at d)); [|reflexivity].
  rewrite !run_bind, run_emit, run_lift.
  now destruct (get_custom_endpoint api (dividend_instrument d)).
Qed.

Lemma dividend_loop_inv (api : Robinhood) (ds : list dividend) :
  forall (acc out : list dividend_datum) (w w' : world),
    run (io_for_each (dividend_record api) ds acc) w = (Ok out, w') ->
    forallb (fun d => is_ok (get_custom_endpoint api (dividend_instrument d)))
      (List.filter paid ds) = true
    /\ w' = logged w (map (fun d => CallCustomEndpoint (dividend_instrument d))
                        (List.filter paid ds))
    /\ exists new,
         out = (acc ++ new)%list
         /\ Forall2 (payment_from api) new (List.filter paid ds).
Proof.
  induction ds as [|d ds IH]; intros acc out w w' Hrun.
  - injection Hrun as <- <-. rewrite logged_nil.
    repeat split. exists []. now rewrite app_nil_r.
  - cbn [io_for_each] in Hrun. rewrite run_bind, dividend_record_step in Hrun.
    cbn [List.filter]. destruct (paid d).
    + cbn [forallb map].
      destruct (get_custom_endpoint api (dividend_instrument d)) as [ticker|x] eqn:Et;
        [|discriminate].
      apply IH in Hrun as (Hok & -> & new & -> & Hnew).
      rewrite logged_logged. repeat split; [exact Hok|].
      eexists (_ :: new). split; [now rewrite <- app_assoc|].
      constructor; [|exact Hnew]. now repeat split.
    + now apply IH in Hrun.
Qed.

Lemma dividend_loop_ok (api : Robinhood) (ds : list dividend) :
  forallb (fun d => is_ok (get_custom_endpoint api (dividend_instrument d)))
    (List.filter paid ds) = true ->
  forall (acc : list dividend_datum) (w : world),
    exists out w',
      run (io_for_each (dividend_record api) ds acc) w = (Ok out, w').
Proof.
  induction ds as [|d ds IH]; intros Hok acc w.
  - exists acc, w. reflexivity.
  - cbn [io_for_each]. rewrite run_bind, dividend_record_step.
    cbn [List.filter] in Hok. destruct (paid d); [|now apply IH].
    cbn [forallb] in Hok. apply andb_true_iff in Hok as [Hd Hok].
    destruct (get_custom_endpoint api (dividend_instrument d)); [|discriminate].
    now apply IH.
Qed.

Lemma run_dividends (api : Robinhood) (w : world) :
  run (api_dividends api) w = (dividends api, logged w [CallDividends]).
Proof. reflexivity. Qed.

(** X6. The records the dividend fetcher returns stand one to one, in
    order, for the dividends of the reply that have been paid, each with
    the ticker of its instrument, its amount and its payable date; and
    after the one request for the dividends, instruments are resolved for
    the paid dividends only. *)
Theorem dividend_data_paid (api : Robinhood) (ds : list dividend)
    (out : list dividend_datum) (w w' : world) :
  dividends api = Ok ds ->
  run (get_robinhood_dividend_data api) w = (Ok out, w') ->
  Forall2 (payment_from api) out (List.filter paid ds)
  /\ w' = logged w (CallDividends
                    :: map (fun d => CallCustomEndpoint (dividend_instrument d))
                         (List.filter paid ds)).
Proof.
  intros Hd Hrun. unfold get_robinhood_dividend_data in Hrun.
  rewrite run_bind, run_dividends, Hd in Hrun.
  apply dividend_loop_inv in Hrun as (_ & -> & new & -> & Hnew).
  split; [exact Hnew | now rewrite logged_logged].
Qed.

(** X7. The dividend fetcher returns a result exactly when the instrument
    of every paid dividend resolves; an unpaid dividend whose instrument
    does not resolve does no harm. *)
Theorem dividend_data_succeeds_iff (api : Robinhood) (ds : list dividend)
    (w : world) :
  dividends api = Ok ds ->
  (exists out w', run (get_robinhood_dividend_data api) w = (Ok out, w'))
  <-> forallb (fun d => is_ok (get_custom_endpoint api (dividend_instrument d)))
        (List.filter paid ds) = true.
Proof.
  intros Hd. unfold get_robinhood_dividend_data.
  rewrite run_bind, run_dividends, Hd. split.
  - intros (out & w' & Hrun). now apply dividend_loop_inv in Hrun as (Hok & _).
  - intros Hok. now apply dividend_loop_ok.
Qed.

End DividendFetcher.

(** ** Further properties of [parse_robinhood_data_to_mint] *)

Lemma bind_ok {A B} (v : A) (f : A -> result B) : (Ok v ≫= f) = f v.
Proof. reflexivity. Qed.

Lemma bind_raise {A B} (e : exn) (f : A -> result B) :
  (Raise e ≫= f) = Raise e.
Proof. reflexivity. Qed.

Lemma convert_is_ok (s : string) :
  is_ok (convert_robinhood_date s) = (3 <=? length (split "-" s))%nat.
Proof.
  unfold convert_robinhood_date.
  now destruct (split "-" s) as [|a [|b [|c rest]]].
Qed.

Lemma convert_error (s : string) (e : exn) :
  convert_robinhood_date s = Raise e -> e = IndexError.
Proof.
  unfold convert_robinhood_date.
  destruct (split "-" s) as [|a [|b [|c rest]]]; cbn; congruence.
Qed.

(** A loop whose body only appends to the accumulator can be run from the
    empty list and its result appended afterwards. *)
Lemma for_each_acc {A B} (body : A -> list B -> result (list B)) :
  (forall x acc, body x acc = (rows ← body x []; Ok (acc ++ rows)%list)) ->
  forall xs acc,
    for_each body xs acc = (rows ← for_each body xs []; Ok (acc ++ rows)%list).
Proof.
  intros Hbody xs. induction xs as [|x xs IH]; intros acc.
  - cbn. now rewrite app_nil_r.
  - cbn [for_each]. rewrite (Hbody x acc).
    destruct (body x []) as [r|e]; [|reflexivity].
    rewrite ?bind_ok.
    rewrite (IH (acc ++ r)%list), (IH r).
    destruct (for_each body xs []) as [rows|e]; [|reflexivity].
    rewrite ?bind_ok.
    now rewrite app_assoc.
Qed.

Section ParseProperties.

Context `{PyFloat}.

Lemma trade_line_acc (t : trade_datum) (acc : list mint_row) :
  trade_line t acc = (rows ← trade_line t []; Ok (acc ++ rows)%list).
Proof.
  unfold trade_line. now destruct (convert_robinhood_date (trade_Date t)).
Qed.

Lemma dividend_line_acc (d : dividend_datum) (acc : list mint_row) :
  dividend_line d acc = (rows ← dividend_line d []; Ok (acc ++ rows)%list).
Proof.
  unfold dividend_line.
  destruct (convert_robinhood_date (dividend_Date d)); [|reflexivity].
  rewrite ?bind_ok.
  now destruct (float_of_str (dividend_amount d)).
Qed.

Lemma trade_line_inv (t : trade_datum) (rows : list mint_row) :
  trade_line t [] = Ok rows -> exists r, rows = [r] /\ row_of_trade r t.
Proof.
  unfold trade_line.
  destruct (convert_robinhood_date (trade_Date t)) as [d|e] eqn:Ed;
    rewrite ?bind_ok, ?bind_raise; [|discriminate].
  intros [= <-]. eexists. split; [reflexivity|].
  unfold row_of_trade. cbn. now repeat split.
Qed.

Lemma dividend_line_inv (d : dividend_datum) (rows : list mint_row) :
  dividend_line d [] = Ok rows -> exists r, rows = [r] /\ row_of_dividend r d.
Proof.
  unfold dividend_line.
  destruct (convert_robinhood_date (dividend_Date d)) as [x|e] eqn:Ed;
    rewrite ?bind_ok, ?bind_raise; [|discriminate].
  destruct (float_of_str (dividend_amount d)) as [a|e] eqn:Ea;
    rewrite ?bind_ok, ?bind_raise; [|discriminate].
  intros [= <-]. eexists. split; [reflexivity|].
  unfold row_of_dividend. cbn. repeat split; try assumption. now exists a.
Qed.

Lemma trade_line_is_ok (t : trade_datum) (acc : list mint_row) :
  is_ok (trade_line t acc) = trade_line_ok t.
Proof.
  unfold trade_line, trade_line_ok. rewrite <- convert_is_ok.
  now destruct (convert_robinhood_date (trade_Date t)).
Qed.

Lemma dividend_line_is_ok (d : dividend_datum) (acc : list mint_row) :
  is_ok (dividend_line d acc) = dividend_line_ok d.
Proof.
  unfold dividend_line, dividend_line_ok. rewrite <- convert_is_ok.
  destruct (convert_robinhood_date (dividend_Date d)); [|reflexivity].
  rewrite bind_ok. now destruct (float_of_str (dividend_amount d)).
Qed.

(** The two guarded loops of the function, one after the other. *)
Lemma parse_loops (td : option (list trade_datum))
    (dd : option (list dividend_datum)) :
  parse_robinhood_data_to_mint td dd
  = (m ← for_each trade_line (default [] td) [];
     for_each dividend_line (default [] dd) m).
Proof.
  unfold parse_robinhood_data_to_mint.
  assert (Ht : (if truthy_opt_list td
                then for_each trade_line (default [] td) []
                else Ok [])
               = for_each trade_line (default [] td) []).
  { destruct td as [[|t ts]|]; reflexivity. }
  rewrite Ht. destruct (for_each trade_line (default [] td) []) as [m|e];
    [|reflexivity].
  rewrite ?bind_ok.
  assert (Hd : (if truthy_opt_list dd
                then for_each dividend_line (default [] dd) m
                else Ok m)
               = for_each dividend_line (default [] dd) m).
  { destruct dd as [[|d ds]|]; reflexivity. }
  rewrite Hd. apply result_bind_ok.
Qed.

Lemma trade_rows_inv (ts : list trade_datum) :
  forall rows, for_each trade_line ts [] = Ok rows ->
               Forall2 row_of_trade rows ts.
Proof.
  induction ts as [|t ts IH]; intros rows Hrows.
  - injection Hrows as <-. constructor.
  - cbn [for_each] in Hrows.
    destruct (trade_line t []) as [r|e] eqn:El;
      rewrite ?bind_ok, ?bind_raise in Hrows; [|discriminate].
    apply trade_line_inv in El as (row & -> & Hrow).
    rewrite (for_each_acc trade_line trade_line_acc) in Hrows.
    destruct (for_each trade_line ts []) as [rest|e];
      rewrite ?bind_ok, ?bind_raise in Hrows; [|discriminate].
    injection Hrows as <-. constructor; [exact Hrow | now apply IH].
Qed.

Lemma dividend_rows_inv (ds : list dividend_datum) :
  forall rows, for_each dividend_line ds [] = Ok rows ->
               Forall2 row_of_dividend rows ds.
Proof.
  induction ds as [|d ds IH]; intros rows Hrows.
  - injection Hrows as <-. constructor.
  - cbn [for_each] in Hrows.
    destruct (dividend_line d []) as [r|e] eqn:El;
      rewrite ?bind_ok, ?bind_raise in Hrows; [|discriminate].
    apply dividend_line_inv in El as (row & -> & Hrow).
    rewrite (for_each_acc dividend_line dividend_line_acc) in Hrows.
    destruct (for_each dividend_line ds []) as [rest|e];
      rewrite ?bind_ok, ?bind_raise in Hrows; [|discriminate].
    injection Hrows as <-. constructor; [exact Hrow | now apply IH].
Qed.

(** X8. Whatever the records hold, a result of
    [parse_robinhood_data_to_mint] consists of one row per trade followed
    by one row per dividend, in source order, [None] counting as no
    record.  Each row has its date converted by [convert_robinhood_date],
    the amount rounded to two places (of the stored cost for a trade, of
    the amount read as a float for a dividend), ["credit"] as transaction
    type and no account name. *)
Theorem parse_rows_of_records (td : option (list trade_datum))
    (dd : option (list dividend_datum)) (rows : list mint_row) :
  parse_robinhood_data_to_mint td dd = Ok rows ->
  exists trows drows,
    rows = (trows ++ drows)%list
    /\ Forall2 row_of_trade trows (default [] td)
    /\ Forall2 row_of_dividend drows (default [] dd).
Proof.
  rewrite parse_loops. intros Hrows.
  destruct (for_each trade_line (default [] td) []) as [trows|e] eqn:Et;
    rewrite ?bind_ok, ?bind_raise in Hrows; [|discriminate].
  rewrite (for_each_acc dividend_line dividend_line_acc) in Hrows.
  destruct (for_each dividend_line (default [] dd) []) as [drows|e] eqn:Ed;
    rewrite ?bind_ok, ?bind_raise in Hrows; [|discriminate].
  injection Hrows as <-. exists trows, drows.
  split; [reflexivity|]. split.
  - now apply trade_rows_inv.
  - now apply dividend_rows_inv.
Qed.

(** X9. Converting trades and dividends together is converting each group
    alone and putting the dividend rows after the trade rows; an error in
    either group is the error of the whole, the trades' first. *)
Theorem parse_by_groups (td : option (list trade_datum))
    (dd : option (list dividend_datum)) :
  parse_robinhood_data_to_mint td dd
  = (trows ← parse_robinhood_data_to_mint td None;
     drows ← parse_robinhood_data_to_mint None dd;
     Ok (trows ++ drows)%list).
Proof.
  rewrite !parse_loops.
  change (for_each dividend_line (default [] None) ?m) with (Ok m).
  change (for_each trade_line (default [] None) []) with (@Ok (list mint_row) []).
  destruct (for_each trade_line (default [] td) []) as [trows|e];
    rewrite ?bind_ok, ?bind_raise; [|reflexivity].
  rewrite (for_each_acc dividend_line dividend_line_acc).
  destruct (for_each dividend_line (default [] dd) []);
    rewrite ?bind_ok, ?bind_raise; reflexivity.
Qed.

Lemma trade_loop_is_ok (ts : list trade_datum) :
  is_ok (for_each trade_line ts []) = forallb trade_line_ok ts.
Proof.
  induction ts as [|t ts IH]; [reflexivity|].
  cbn [for_each forallb]. rewrite <- (trade_line_is_ok t []), <- IH.
  destruct (trade_line t []) as [r|e]; [|reflexivity].
  rewrite bind_ok, (for_each_acc trade_line trade_line_acc).
  now destruct (for_each trade_line ts []).
Qed.

Lemma dividend_loop_is_ok (ds : list dividend_datum) :
  is_ok (for_each dividend_line ds []) = forallb dividend_line_ok ds.
Proof.
  induction ds as [|d ds IH]; [reflexivity|].
  cbn [for_each forallb]. rewrite <- (dividend_line_is_ok d []), <- IH.
  destruct (dividend_line d []) as [r|e]; [|reflexivity].
  rewrite bind_ok, (for_each_acc dividend_line dividend_line_acc).
  now destruct (for_each dividend_line ds []).
Qed.

(** X10. [parse_robinhood_data_to_mint] returns rows exactly when every
    date, of a trade or of a dividend, has at least three ["-"]-separated
    segments and every dividend amount is accepted by [float]; otherwise
    it raises and returns no row at all. *)
Theorem parse_succeeds_iff (td : option (list trade_datum))
    (dd : option (list dividend_datum)) :
  is_ok (parse_robinhood_data_to_mint td dd)
  = forallb trade_line_ok (default [] td)
    && forallb dividend_line_ok (default [] dd).
Proof.
  rewrite parse_loops, <- trade_loop_is_ok, <- dividend_loop_is_ok.
  destruct (for_each trade_line (default [] td) []) as [trows|e]; [|reflexivity].
  rewrite ?bind_ok.
  rewrite (for_each_acc dividend_line dividend_line_acc).
  now destruct (for_each dividend_line (default [] dd) []).
Qed.

End ParseProperties.

(** ** Further properties of [filter_by_date] *)

Lemma filter_step_after {Row} (key : Row -> string) (D : datetime) (r : Row)
    (acc : list Row) :
  filter_step key D r acc
  = if readable key r
    then Ok (if after key D r then acc ++ [r] else acc)%list
    else (d ← parse_mint_date (key r); Ok acc).
Proof.
  unfold filter_step, readable, after.
  now destruct (parse_mint_date (key r)).
Qed.

Lemma filter_loop_after {Row} (key : Row -> string) (D : datetime)
    (data : list Row) :
  forall acc,
    forallb (readable key) data = true ->
    for_each (filter_step key D) data acc
    = Ok (acc ++ List.filter (after key D) data)%list.
Proof.
  induction data as [|r data IH]; intros acc Hok.
  - cbn. now rewrite app_nil_r.
  - cbn [forallb] in Hok. apply andb_true_iff in Hok as [Hr Hok].
    cbn [for_each List.filter]. rewrite filter_step_after, Hr, bind_ok.
    rewrite (IH _ Hok). destruct (after key D r); [|reflexivity].
    now rewrite <- app_assoc.
Qed.

Lemma filter_loop_fails {Row} (key : Row -> string) (D : datetime)
    (data : list Row) :
  forall acc,
    forallb (readable key) data = false ->
    is_ok (for_each (filter_step key D) data acc) = false.
Proof.
  induction data as [|r data IH]; intros acc Hok; [discriminate|].
  cbn [forallb] in Hok. cbn [for_each]. rewrite filter_step_after.
  destruct (readable key r) eqn:Hr.
  - rewrite bind_ok. now apply IH.
  - unfold readable in Hr.
    now destruct (parse_mint_date (key r)).
Qed.

Lemma filter_is_ok {Row} (key : Row -> string) (cutoff : string)
    (data : list Row) :
  is_ok (filter_by_date key cutoff data)
  = is_ok (parse_mint_date cutoff) && forallb (readable key) data.
Proof.
  unfold filter_by_date.
  destruct (parse_mint_date cutoff) as [D|e]; [|reflexivity].
  rewrite bind_ok. cbn [is_ok andb].
  destruct (forallb (readable key) data) eqn:Hok.
  - now rewrite (filter_loop_after key D data [] Hok).
  - now apply filter_loop_fails.
Qed.

(** X11. [filter_by_date] returns a result exactly when the cutoff and
    the date of every row split into three ["/"]-separated parts that
    [int] and [datetime] accept; the cutoff is read even when there is no
    row, and one unreadable row date fails the whole call. *)
Theorem filter_by_date_succeeds_iff {Row} (key : Row -> string)
    (cutoff : string) (data : list Row) :
  is_ok (filter_by_date key cutoff data)
  = is_ok (parse_mint_date cutoff) && forallb (readable key) data.
Proof. apply filter_is_ok. Qed.

Lemma filter_by_date_inv {Row} (key : Row -> string) (cutoff : string)
    (data out : list Row) :
  filter_by_date key cutoff data = Ok out ->
  exists D, parse_mint_date cutoff = Ok D
            /\ forallb (readable key) data = true
            /\ out = List.filter (after key D) data.
Proof.
  intros Hf. pose proof (filter_is_ok key cutoff data) as Hok.
  rewrite Hf in Hok. symmetry in Hok. apply andb_true_iff in Hok as [Hc Hd].
  unfold filter_by_date in Hf.
  destruct (parse_mint_date cutoff) as [D|e]; [|discriminate].
  rewrite bind_ok, (filter_loop_after key D data [] Hd) in Hf.
  injection Hf as <-. now exists D.
Qed.

Lemma filter_sublist {A} (f : A -> bool) (l : list A) :
  sublist (List.filter f l) l.
Proof.
  induction l as [|x l IH]; cbn; [constructor|].
  destruct (f x); now constructor.
Qed.

Lemma forallb_filter {A} (f g : A -> bool) (l : list A) :
  forallb f l = true -> forallb f (List.filter g l) = true.
Proof.
  induction l as [|x l IH]; cbn; [reflexivity|].
  intros Hl. apply andb_true_iff in Hl as [Hx Hl].
  destruct (g x); cbn; [rewrite Hx|]; now apply IH.
Qed.

Lemma filter_filter_implied {A} (f g : A -> bool) (l : list A) :
  (forall x, f x = true -> g x = true) ->
  List.filter f (List.filter g l) = List.filter f l.
Proof.
  intros Hfg. induction l as [|x l IH]; cbn; [reflexivity|].
  destruct (g x) eqn:Hg; cbn.
  - now rewrite IH.
  - destruct (f x) eqn:Hf; [|exact IH].
    rewrite (Hfg x Hf) in Hg. discriminate.
Qed.

(** X12. The result of [filter_by_date] is a sublist of the data: rows
    are dropped, never added, changed or reordered. *)
Theorem filter_by_date_sublist {Row} (key : Row -> string) (cutoff : string)
    (data out : list Row) :
  filter_by_date key cutoff data = Ok out -> sublist out data.
Proof.
  intros Hf. apply filter_by_date_inv in Hf as (D & _ & _ & ->).
  apply filter_sublist.
Qed.

Lemma gt_trans_le (d D1 D2 : datetime) :
  Datetime.gt D1 D2 = false -> Datetime.gt d D2 = true ->
  Datetime.gt d D1 = true.
Proof. unfold Datetime.gt. lia. Qed.

(** X13. Filtering what has been filtered: with a second cutoff that is
    not earlier than the first, the second call alone gives the same
    result as the two calls in a row; in particular filtering again by the
    same cutoff changes nothing. *)
Theorem filter_by_date_twice {Row} (key : Row -> string) (c1 c2 : string)
    (D1 D2 : datetime) (data out : list Row) :
  parse_mint_date c1 = Ok D1 ->
  parse_mint_date c2 = Ok D2 ->
  Datetime.gt D1 D2 = false ->
  filter_by_date key c1 data = Ok out ->
  filter_by_date key c2 out = filter_by_date key c2 data
  /\ filter_by_date key c1 out = Ok out.
Proof.
  intros H1 H2 Hle Hf.
  apply filter_by_date_inv in Hf as (D & HD & Hok & ->).
  rewrite H1 in HD. injection HD as <-.
  pose proof (forallb_filter (readable key) (after key D1) data Hok) as Hok'.
  unfold filter_by_date. rewrite H1, H2, !bind_ok.
  rewrite !filter_loop_after by assumption. cbn [app]. split; f_equal.
  - apply filter_filter_implied. intros r. unfold after.
    destruct (parse_mint_date (key r)); [|discriminate].
    now apply gt_trans_le.
  - now apply filter_filter_implied.
Qed.


(** ** Further properties of [write_csv] *)

Section WriterProperties.

Context `{PyFloat}.

Lemma run_writerow (path : string) (header : list string) (row : mint_row)
    (l : list event) (f : gmap string (list (list string)))
    (c : list (list string)) :
  run (writerow path header row) (mk_world l (<[path := c]> f))
  = if forallb (has_field header) MINT_HEADERS
    then (Ok tt, mk_world l (<[path := (c ++ [record_of header row])%list]> f))
    else (Raise ValueError, mk_world l (<[path := c]> f)).
Proof.
  unfold writerow. rewrite run_bind, run_lift.
  destruct (forallb (has_field header) MINT_HEADERS); [|reflexivity].
  unfold append_record. cbn [run log files].
  now rewrite lookup_insert_eq, insert_insert_eq.
Qed.

Lemma run_write_rows (path : string) (header : list string)
    (data : list mint_row) (l : list event)
    (f : gmap string (list (list string))) :
  forallb (has_field header) MINT_HEADERS = true ->
  forall c,
    run (io_for_each (fun row (_ : unit) => writerow path header row) data tt)
      (mk_world l (<[path := c]> f))
    = (Ok tt, mk_world l (<[path := (c ++ map (record_of header) data)%list]> f)).
Proof.
  intros Hh. induction data as [|row data IH]; intros c.
  - cbn. now rewrite app_nil_r.
  - cbn [io_for_each map]. rewrite run_bind, run_writerow, Hh, IH.
    now rewrite <- app_assoc.
Qed.

Lemma run_write_csv_open (header : list string) (data : list mint_row)
    (path : string) (w : world) :
  snd (OsPath.splitext path) = ".csv" ->
  run (write_csv header data path) w
  = match run (io_for_each (fun row (_ : unit) => writerow path header row)
                 data tt)
            (mk_world (log w) (<[path := [header]]> (files w))) with
    | (Ok _, w') => (Ok path, w')
    | (Raise e, w') => (Raise e, w')
    end.
Proof.
  intros Hext. unfold write_csv, py_assert.
  rewrite run_bind, run_lift, Hext. cbn [String.eqb].
  change (String.eqb ".csv" ".csv") with true. cbv iota.
  rewrite run_bind. unfold open_w at 1. cbn [run log files].
  rewrite run_bind. unfold append_record at 1. cbn [run log files].
  rewrite lookup_insert_eq, insert_insert_eq. cbn [default app].
  rewrite run_bind.
  now destruct (run _ _) as [[[]|e] w'].
Qed.

Lemma write_csv_complete (header : list string) (data : list mint_row)
    (path : string) (w : world) :
  snd (OsPath.splitext path) = ".csv" ->
  forallb (has_field header) MINT_HEADERS = true ->
  run (write_csv header data path) w
  = (Ok path,
     mk_world (log w)
       (<[path := header :: map (record_of header) data]> (files w))).
Proof.
  intros Hext Hh. rewrite (run_write_csv_open _ _ _ _ Hext).
  now rewrite (run_write_rows path header data (log w) (files w) Hh [header]).
Qed.



End WriterProperties.

(** ** Further properties of [main] *)

Lemma emits_ret {A} (P : event -> Prop) (a : A) : emits P (mret a : IO A).
Proof. intros w. exists []. now rewrite app_nil_r. Qed.

Lemma emits_lift {A} (P : event -> Prop) (r : result A) : emits P (lift r).
Proof. intros w. exists []. now rewrite app_nil_r. Qed.

Lemma emits_emit (P : event -> Prop) (ev : event) : P ev -> emits P (emit ev).
Proof. intros Hev w. exists [ev]. split; [reflexivity | now constructor]. Qed.

Lemma emits_bind {A B} (P : event -> Prop) (m : IO A) (f : A -> IO B) :
  emits P m -> (forall a, emits P (f a)) -> emits P (m ≫= f).
Proof.
  intros Hm Hf w. rewrite run_bind. destruct (Hm w) as (e1 & Hl1 & HP1).
  destruct (run m w) as [[a|e] w1]; cbn [snd] in *.
  - destruct (Hf a w1) as (e2 & Hl2 & HP2). exists (e1 ++ e2)%list.
    rewrite Hl2, Hl1, app_assoc. split; [reflexivity | now apply Forall_app].
  - now exists e1.
Qed.

Lemma emits_for_each {A S} (P : event -> Prop) (body : A -> S -> IO S)
    (xs : list A) :
  (forall x acc, emits P (body x acc)) ->
  forall acc, emits P (io_for_each body xs acc).
Proof.
  intros Hbody. induction xs as [|x xs IH]; intros acc; cbn [io_for_each].
  - apply emits_ret.
  - apply emits_bind; [apply Hbody | exact IH].
Qed.

Lemma emits_silent {A} (P : event -> Prop) (m : IO A) :
  (forall w, log (snd (run m w)) = log w) -> emits P m.
Proof. intros Hm w. exists []. now rewrite app_nil_r, Hm. Qed.

Lemma writes_or_raises_bind {A B} (path : string) (header : list string)
    (m : IO A) (f : A -> IO B) :
  keeps_files m -> (forall a, writes_or_raises path header (f a)) ->
  writes_or_raises path header (m ≫= f).
Proof.
  intros Hm Hf w. rewrite run_bind. specialize (Hm w).
  destruct (run m w) as [[a|e] w1]; cbn [snd] in Hm.
  - specialize (Hf a w1). rewrite Hm in Hf. exact Hf.
  - exact Hm.
Qed.

Ltac emits_steps :=
  repeat first
    [ apply emits_ret | apply emits_lift
    | apply emits_emit; solve [auto | discriminate]
    | apply emits_bind; [|intros] ].

Section MainProperties.

Context `{PyFloat}.

Lemma emits_trade_data (P : event -> Prop) (api : Robinhood) :
  P CallOrderHistory -> (forall url, P (CallCustomEndpoint url)) ->
  (forall text, P (Stdout text)) ->
  emits P (get_robinhood_trade_data api).
Proof.
  intros Ho Hc Hs. unfold get_robinhood_trade_data, api_order_history.
  apply emits_bind; [emits_steps|]. intros orders.
  apply emits_for_each. intros o acc.
  unfold trade_order, api_get_custom_endpoint.
  apply emits_bind; [apply emits_bind; [now apply emits_emit | intros; apply emits_lift]|].
  intros ticker. apply emits_bind; [now apply emits_emit|]. intros _.
  destruct (0 <? length (executions o))%nat; emits_steps.
Qed.

Lemma emits_dividend_data (P : event -> Prop) (api : Robinhood) :
  P CallDividends -> (forall url, P (CallCustomEndpoint url)) ->
  emits P (get_robinhood_dividend_data api).
Proof.
  intros Hd Hc. unfold get_robinhood_dividend_data, api_dividends.
  apply emits_bind; [emits_steps|]. intros ds.
  apply emits_for_each. intros d acc.
  unfold dividend_record, api_get_custom_endpoint.
  destruct (truthy_opt_str (paid_at d)); [|apply emits_ret].
  apply emits_bind; [apply emits_bind; [now apply emits_emit | intros; apply emits_lift]|].
  intros ticker. apply emits_ret.
Qed.

Lemma write_csv_silent (header : list string) (data : list mint_row)
    (path : string) (w : world) :
  log (snd (run (write_csv header data path) w)) = log w.
Proof.
  unfold write_csv, py_assert. rewrite run_bind, run_lift.
  destruct (String.eqb (snd (OsPath.splitext path)) ".csv"); [|reflexivity].
  rewrite run_bind. unfold open_w at 1. cbn [run].
  rewrite run_bind. unfold append_record at 1. cbn [run log files].
  rewrite run_bind.
  set (w0 := mk_world (log w) _).
  assert (Hloop : forall rows w1,
             log (snd (run (io_for_each
                             (fun row (_ : unit) => writerow path header row)
                             rows tt) w1)) = log w1).
  { induction rows as [|row rows IH]; intros w1; [reflexivity|].
    cbn [io_for_each]. rewrite run_bind. unfold writerow at 1.
    rewrite run_bind, run_lift.
    destruct (forallb (has_field header) MINT_HEADERS); [|reflexivity].
    unfold append_record. cbn [run log files]. now rewrite IH. }
  specialize (Hloop data w0).
  destruct (run (io_for_each _ data tt) w0) as [[[]|e] w1]; exact Hloop.
Qed.

Lemma write_csv_refused (header : list string) (data : list mint_row)
    (path : string) (w : world) :
  snd (OsPath.splitext path) <> ".csv" ->
  run (write_csv header data path) w = (Raise AssertionError, w).
Proof.
  intros Hext. unfold write_csv, py_assert. rewrite run_bind, run_lift.
  now destruct (String.eqb_spec (snd (OsPath.splitext path)) ".csv").
Qed.

Lemma mint_headers_complete :
  forallb (has_field MINT_HEADERS) MINT_HEADERS = true.
Proof. reflexivity. Qed.

Lemma writes_or_raises_write (data : list mint_row) (path : string) :
  writes_or_raises path MINT_HEADERS
    (_ ← write_csv MINT_HEADERS data path; emit Elapsed).
Proof.
  intros w. rewrite run_bind.
  destruct (String.eqb_spec (snd (OsPath.splitext path)) ".csv") as [Hext|Hext].
  - rewrite (write_csv_complete _ data _ w Hext mint_headers_complete).
    rewrite run_emit. cbn [files]. eauto.
  - now rewrite (write_csv_refused _ data _ w Hext).
Qed.

Lemma keeps_files_usage (message : string) :
  keeps_files (do_usage_and_die message).
Proof. unfold do_usage_and_die. keeps. Qed.

Lemma main_writes_or_raises (a : args) (api : Robinhood) :
  writes_or_raises (target a) MINT_HEADERS (main a api).
Proof.
  unfold main. cbv zeta.
  apply writes_or_raises_bind; [apply keeps_files_emit|]. intros _.
  apply writes_or_raises_bind.
  { destruct (negb _); [|apply keeps_files_ret].
    apply keeps_files_bind; [apply keeps_files_usage | intros; apply keeps_files_ret]. }
  intros _. apply writes_or_raises_bind.
  { destruct (truthy_default_true (arg_dividends a)); [|apply keeps_files_ret].
    apply keeps_files_bind; [apply fetchers_keep_files_div | intros; apply keeps_files_ret]. }
  intros dividend_data. apply writes_or_raises_bind.
  { destruct (truthy_default_true (trades a)); [|apply keeps_files_ret].
    apply keeps_files_bind; [apply fetchers_keep_files_trade | intros; apply keeps_files_ret]. }
  intros trade_data. apply writes_or_raises_bind; [apply keeps_files_lift|].
  intros mint_data. apply writes_or_raises_bind.
  { destruct (truthy_opt_str (date a)); [apply keeps_files_lift | apply keeps_files_ret]. }
  intros rows. unfold target.
  destruct (truthy_opt_str (output a)); apply writes_or_raises_write.
Qed.


End MainProperties.

Lemma always_raises_bind {A B} (m : IO A) (f : A -> IO B) :
  (forall a, always_raises (f a)) -> always_raises (m ≫= f).
Proof.
  intros Hf w. rewrite run_bind. destruct (run m w) as [[a|e] w1].
  - apply Hf.
  - now exists e, w1.
Qed.

Section FlagProperties.

Context `{PyFloat}.

Lemma emits_usage (P : event -> Prop) (message : string) :
  P (Stderr message) -> P PrintHelp -> emits P (do_usage_and_die message).
Proof.
  intros Hs Hh. unfold do_usage_and_die.
  apply emits_bind; [now apply emits_emit|]. intros _.
  apply emits_bind; [now apply emits_emit|]. intros _. apply emits_ret.
Qed.

Lemma emits_write_csv (P : event -> Prop) (header : list string)
    (data : list mint_row) (path : string) :
  emits P (write_csv header data path).
Proof. apply emits_silent. apply write_csv_silent. Qed.

Lemma script_log (P : event -> Prop) (a : args) (api : Robinhood) (w : world) :
  emits P (main a api) -> (forall e, P (Traceback e)) ->
  exists evs, log (snd (script a api w)) = (log w ++ evs)%list /\ Forall P evs.
Proof.
  intros Hm Ht. destruct (Hm w) as (evs & Hl & HP). unfold script.
  destruct (run (main a api) w) as [[[]|e] w']; cbn [snd log] in *.
  - now exists evs.
  - exists (evs ++ [Traceback e])%list. rewrite Hl, app_assoc.
    split; [reflexivity|]. apply Forall_app. split; [exact HP|].
    constructor; [apply Ht | constructor].
Qed.

Lemma main_without_trades (a : args) (api : Robinhood) :
  emits (fun ev => ev <> CallOrderHistory) (main (with_trades a (Some "")) api).
Proof.
  unfold main. cbv zeta.
  apply emits_bind; [now apply emits_emit|]. intros _.
  apply emits_bind.
  { destruct (negb _); [|apply emits_ret].
    apply emits_bind; [now apply emits_usage | intros; apply emits_ret]. }
  intros _. apply emits_bind.
  { destruct (truthy_default_true _); [|apply emits_ret].
    apply emits_bind; [now apply emits_dividend_data | intros; apply emits_ret]. }
  intros dividend_data. apply emits_bind; [apply emits_ret|].
  intros trade_data. apply emits_bind; [apply emits_lift|].
  intros mint_data. apply emits_bind.
  { destruct (truthy_opt_str _); [apply emits_lift | apply emits_ret]. }
  intros rows. apply emits_bind; [|intros; now apply emits_emit].
  destruct (truthy_opt_str _); apply emits_write_csv.
Qed.

Lemma main_without_dividends (a : args) (api : Robinhood) :
  emits (fun ev => ev <> CallDividends)
    (main (with_arg_dividends a (Some "")) api).
Proof.
  unfold main. cbv zeta.
  apply emits_bind; [now apply emits_emit|]. intros _.
  apply emits_bind.
  { destruct (negb _); [|apply emits_ret].
    apply emits_bind; [now apply emits_usage | intros; apply emits_ret]. }
  intros _. apply emits_bind; [apply emits_ret|].
  intros dividend_data. apply emits_bind.
  { destruct (truthy_default_true _); [|apply emits_ret].
    apply emits_bind; [now apply emits_trade_data | intros; apply emits_ret]. }
  intros trade_data. apply emits_bind; [apply emits_lift|].
  intros mint_data. apply emits_bind.
  { destruct (truthy_opt_str _); [apply emits_lift | apply emits_ret]. }
  intros rows. apply emits_bind; [|intros; now apply emits_emit].
  destruct (truthy_opt_str _); apply emits_write_csv.
Qed.

(** X18. The fetch options are judged by the truth value of their text.
    Any non-empty text after [--trades] or [--dividends], ["False"]
    included, gives the run the default gives.  Only the empty text
    switches a fetch off: the run then never asks for the order history,
    respectively the dividends. *)
Theorem fetch_flags (a : args) (api : Robinhood) (s : string) (w : world) :
  (s <> EmptyString ->
   script (with_trades a (Some s)) api w = script (with_trades a None) api w
   /\ script (with_arg_dividends a (Some s)) api w
      = script (with_arg_dividends a None) api w)
  /\ (exists evs,
        log (snd (script (with_trades a (Some "")) api w)) = (log w ++ evs)%list
        /\ Forall (fun ev => ev <> CallOrderHistory) evs)
  /\ (exists evs,
        log (snd (script (with_arg_dividends a (Some "")) api w))
        = (log w ++ evs)%list
        /\ Forall (fun ev => ev <> CallDividends) evs).
Proof.
  split; [|split].
  - intros Hs. destruct s as [|c s]; [congruence|]. split; reflexivity.
  - apply script_log; [apply main_without_trades | discriminate].
  - apply script_log; [apply main_without_dividends | discriminate].
Qed.

Lemma always_raises_first {A B} (m : IO A) (f : A -> IO B) :
  always_raises m -> always_raises (m ≫= f).
Proof.
  intros Hm w. rewrite run_bind. destruct (Hm w) as (e & w' & ->).
  now exists e, w'.
Qed.

Lemma main_wrong_extension (a : args) (api : Robinhood) :
  snd (OsPath.splitext (target a)) <> ".csv" -> always_raises (main a api).
Proof.
  intros Hext. unfold main. cbv zeta.
  do 6 (apply always_raises_bind; intros ?).
  apply always_raises_first. unfold target in Hext.
  destruct (truthy_opt_str (output a)); intros w;
    rewrite (write_csv_refused _ _ _ w Hext); eauto.
Qed.

Lemma main_quiet_when_logged_in (a : args) (api : Robinhood) :
  login api (username a) (password a) = true ->
  emits (fun ev => ev <> PrintHelp) (main a api).
Proof.
  intros Hlogin. unfold main. cbv zeta. rewrite Hlogin. cbn [negb].
  apply emits_bind; [now apply emits_emit|]. intros _.
  apply emits_bind; [apply emits_ret|]. intros _.
  apply emits_bind.
  { destruct (truthy_default_true _); [|apply emits_ret].
    apply emits_bind; [now apply emits_dividend_data | intros; apply emits_ret]. }
  intros dividend_data. apply emits_bind.
  { destruct (truthy_default_true _); [|apply emits_ret].
    apply emits_bind; [now apply emits_trade_data | intros; apply emits_ret]. }
  intros trade_data. apply emits_bind; [apply emits_lift|].
  intros mint_data. apply emits_bind.
  { destruct (truthy_opt_str _); [apply emits_lift | apply emits_ret]. }
  intros rows. apply emits_bind; [|intros; now apply emits_emit].
  destruct (truthy_opt_str _); apply emits_write_csv.
Qed.

Lemma main_emits_any (a : args) (api : Robinhood) :
  emits (fun _ => True) (main a api).
Proof.
  unfold main. cbv zeta.
  apply emits_bind; [now apply emits_emit|]. intros _.
  apply emits_bind.
  { destruct (negb _); [|apply emits_ret].
    apply emits_bind; [now apply emits_usage | intros; apply emits_ret]. }
  intros _. apply emits_bind.
  { destruct (truthy_default_true _); [|apply emits_ret].
    apply emits_bind; [now apply emits_dividend_data | intros; apply emits_ret]. }
  intros dividend_data. apply emits_bind.
  { destruct (truthy_default_true _); [|apply emits_ret].
    apply emits_bind; [now apply emits_trade_data | intros; apply emits_ret]. }
  intros trade_data. apply emits_bind; [apply emits_lift|].
  intros mint_data. apply emits_bind.
  { destruct (truthy_opt_str _); [apply emits_lift | apply emits_ret]. }
  intros rows. apply emits_bind; [|intros; now apply emits_emit].
  destruct (truthy_opt_str _); apply emits_write_csv.
Qed.

(** X19. An output path without the extension [".csv"] is noticed only
    by [write_csv], at the end of the run: the script ends with an
    uncaught exception and status 1, no file is touched, and after an
    accepted login the help text is never printed. *)
Theorem script_wrong_extension (a : args) (api : Robinhood) (w : world) :
  snd (OsPath.splitext (target a)) <> ".csv" ->
  fst (script a api w) = 1
  /\ files (snd (script a api w)) = files w
  /\ exists evs e,
       log (snd (script a api w)) = (log w ++ evs ++ [Traceback e])%list
       /\ (login api (username a) (password a) = true ->
           Forall (fun ev => ev <> PrintHelp) evs).
Proof.
  intros Hext.
  destruct (main_wrong_extension a api Hext w) as (e & w' & Hrun).
  pose proof (main_writes_or_raises a api w) as Hfiles.
  unfold script. rewrite Hrun in *. cbn [fst snd log files].
  split; [reflexivity|]. split; [exact Hfiles|].
  destruct (login api (username a) (password a)) eqn:Hlogin.
  - destruct (main_quiet_when_logged_in a api Hlogin w) as (evs & Hl & HP).
    rewrite Hrun in Hl. cbn [snd] in Hl. exists evs, e.
    rewrite Hl, <- app_assoc. now split.
  - destruct (main_emits_any a api w) as (evs & Hl & _).
    rewrite Hrun in Hl. cbn [snd] in Hl. exists evs, e.
    rewrite Hl, <- app_assoc. split; [reflexivity | discriminate].
Qed.

End FlagProperties.

(** ** [reinvest_dividends.main] *)

Section ReinvestProperties.

Context `{PyFloat}.

Import Reinvest.

Lemma rrun_bind {A B} (m : RIO A) (f : A -> RIO B) (w : world) :
  rrun (m ≫= f) w
  = match rrun m w with
    | (inr a, w') => rrun (f a) w'
    | (inl e, w') => (inl e, w')
    end.
Proof. reflexivity. Qed.

Lemma rrun_imported {A} (m : IO A) (w : world) :
  rrun (imported m) w
  = match run m w with
    | (Ok a, w') => (inr a, w')
    | (Raise e, w') => (inl (Propagated e), w')
    end.
Proof. reflexivity. Qed.

Lemma rrun_ret {A} (v : A) (w : world) : rrun (mret v) w = (inr v, w).
Proof. reflexivity. Qed.

Lemma rrun_global_dividends {A} (v : A) (w : world) :
  rrun (global "get_robinhood_dividend_data" v) w = (inr v, w).
Proof. reflexivity. Qed.

Lemma rrun_global_trades {A} (v : A) (w : world) :
  rrun (global "get_robinhood_trade_data" v) w
  = (inl (NameError "get_robinhood_trade_data"), w).
Proof. reflexivity. Qed.

Lemma rrun_global_parse {A} (v : A) (w : world) :
  rrun (global "parse_robinhood_data_to_mint" v) w
  = (inl (NameError "parse_robinhood_data_to_mint"), w).
Proof. reflexivity. Qed.

Lemma run_usage (message : string) (w : world) :
  run (do_usage_and_die message) w
  = (Ok 2, logged w [Stderr message; PrintHelp]).
Proof.
  unfold do_usage_and_die, logged. cbn. now rewrite <- app_assoc.
Qed.

(** X20. [reinvest_dividends.main] cannot run to its end.  After the
    login, and after fetching the dividends if they are asked for, it
    stops at the first name its module does not bind:
    [get_robinhood_trade_data] when trades are asked for,
    [parse_robinhood_data_to_mint] otherwise; the only other way out is
    an error of the dividend fetch.  No file is ever written. *)
Theorem reinvest_main_never_completes (a : args) (api : Robinhood) (w : world) :
  exists err w',
    rrun (Reinvest.main a api) w = (inl err, w')
    /\ files w' = files w
    /\ ((exists e, err = Propagated e
                   /\ truthy_default_true (arg_dividends a) = true)
        \/ err = NameError (if truthy_default_true (trades a)
                            then "get_robinhood_trade_data"
                            else "parse_robinhood_data_to_mint")).
Proof.
  unfold Reinvest.main. cbv zeta.
  rewrite rrun_bind, rrun_imported, run_emit. cbv iota beta.
  rewrite rrun_bind.
  set (w1 := mk_world (log w ++ [CallLogin (username a) (password a)])%list (files w)).
  assert (Husage :
    exists w2, files w2 = files w
      /\ rrun (if negb (login api (username a) (password a))
               then _ ← imported (do_usage_and_die
                                    "Username or Password is incorrect");
                    mret tt
               else mret tt) w1 = (inr tt, w2)).
  { destruct (negb _).
    - rewrite rrun_bind, rrun_imported, run_usage.
      eexists. split; [|reflexivity]. reflexivity.
    - exists w1. split; reflexivity. }
  destruct Husage as (w2 & Hf2 & ->). cbv iota beta.
  rewrite rrun_bind.
  destruct (truthy_default_true (arg_dividends a)) eqn:Hd.
  - rewrite rrun_bind, rrun_global_dividends, rrun_bind, rrun_imported.
    pose proof (fetchers_keep_files_div api w2) as Hk.
    destruct (run (get_robinhood_dividend_data api) w2) as [[r|e] w3];
      cbn [snd] in Hk.
    + rewrite rrun_ret. rewrite rrun_bind.
      destruct (truthy_default_true (trades a)).
      * rewrite rrun_bind, rrun_global_trades.
        eexists _, w3. split; [reflexivity|]. split; [congruence | now right].
      * rewrite rrun_ret, rrun_bind, rrun_global_parse.
        eexists _, w3. split; [reflexivity|]. split; [congruence | now right].
    + exists (Propagated e), w3. split; [reflexivity|].
      split; [congruence|]. left. now exists e.
  - rewrite rrun_ret. rewrite rrun_bind.
    destruct (truthy_default_true (trades a)).
    + rewrite rrun_bind, rrun_global_trades.
      eexists _, w2. split; [reflexivity|]. split; [exact Hf2 | now right].
    + rewrite rrun_ret, rrun_bind, rrun_global_parse.
      eexists _, w2. split; [reflexivity|]. split; [exact Hf2 | now right].
Qed.

End ReinvestProperties.

(** ** The date of a trade *)

Lemma split_free (sep : ascii) (a rest : string) :
  OsPath.any_char (fun c => Ascii.eqb c sep) a = false ->
  split sep (a +:+ String sep rest) = a :: split sep rest.
Proof.
  induction a as [|c a IH]; intros Ha; simpl.
  - now rewrite Ascii.eqb_refl.
  - simpl in Ha. apply orb_false_iff in Ha as [Hc Ha].
    now rewrite Hc, (IH Ha).
Qed.

Lemma any_char_app (p : ascii -> bool) (a b : string) :
  OsPath.any_char p (a +:+ b) = OsPath.any_char p a || OsPath.any_char p b.
Proof.
  induction a as [|c a IH]; simpl; [reflexivity|].
  now rewrite IH, orb_assoc.
Qed.

Lemma digit_not_T (c : ascii) (v : Z) :
  digit_of c = Some v -> Ascii.eqb c "T" = false.
Proof.
  destruct c as [[] [] [] [] [] [] [] []]; vm_compute; congruence.
Qed.

Lemma digits_free_of_T (s : string) :
  all_digits s = true -> OsPath.any_char (fun c => Ascii.eqb c "T") s = false.
Proof.
  induction s as [|c s IH]; [reflexivity|]. intros Hs.
  apply all_digits_cons in Hs as (v & Hc & Hs). cbn [OsPath.any_char].
  now rewrite (digit_not_T c v Hc), (IH Hs).
Qed.

Lemma split_iso_timestamp (d rest : string) (dt : datetime) :
  iso_date_value d = Some dt ->
  split "T" (d +:+ String "T" rest) = d :: split "T" rest.
Proof.
  intros Hd. apply split_free.
  apply iso_date_shape in Hd as (ys & ms & ds & -> & _ & Hy & Hm & Hdd & _).
  rewrite any_char_app. simpl. rewrite any_char_app. simpl.
  rewrite (digits_free_of_T ys (proj1 Hy)), (digits_free_of_T ms (proj1 Hm)),
    (digits_free_of_T ds (proj1 Hdd)).
  reflexivity.
Qed.

Section TradeDate.

Context `{PyFloat}.

(** X21. The time of day of an execution is dropped: when the timestamp
    of an order's first execution is an ISO date followed by ["T"] and
    anything, the trade carries that date, and the normalizer turns it
    into the ["MM/DD/YYYY"] text of the same day. *)
Theorem trade_date_drops_time (api : Robinhood) (t : trade_datum) (o : order)
    (e : execution) (more : list execution) (d rest : string) (dt : datetime) :
  trade_from api t o ->
  executions o = e :: more ->
  timestamp e = d +:+ String "T" rest ->
  iso_date_value d = Some dt ->
  trade_Date t = d
  /\ convert_robinhood_date (trade_Date t) = Ok (iso_to_mint d)
  /\ mint_date_value (iso_to_mint d) = Some dt.
Proof.
  intros (e' & more' & tail & He' & _ & _ & _ & _ & Hs) He Hts Hd.
  rewrite He in He'. injection He' as <- <-.
  rewrite Hts, (split_iso_timestamp d rest dt Hd) in Hs.
  injection Hs as <- _.
  split; [reflexivity|]. split.
  - now apply (convert_iso d dt).
  - now apply iso_to_mint_value.
Qed.

End TradeDate.

(** ** A whole run, stage by stage *)

Section WholeRun.

Context `{PyFloat}.

Ltac stage H E v v' :=
  rewrite run_bind in H;
  match type of H with
  | match run ?m ?w with _ => _ end = _ =>
      destruct (run m w) as [[v|?] v'] eqn:E; [|discriminate H]
  end.

(** The stages of a run of [main] that returns. *)
Lemma main_stages (a : args) (api : Robinhood) (w w' : world) :
  run (main a api) w = (Ok tt, w') ->
  exists (dd : option (list dividend_datum)) (td : option (list trade_datum))
         (rows kept : list mint_row) (w1 w2 w3 : world),
    (if truthy_default_true (arg_dividends a)
     then exists r, run (get_robinhood_dividend_data api) w1 = (Ok r, w2)
                    /\ dd = Some r
     else dd = None /\ w2 = w1)
    /\ (if truthy_default_true (trades a)
        then exists r, run (get_robinhood_trade_data api) w2 = (Ok r, w3)
                       /\ td = Some r
        else td = None /\ w3 = w2)
    /\ parse_robinhood_data_to_mint td dd = Ok rows
    /\ (if truthy_opt_str (date a)
        then filter_by_date Date (default "" (date a)) rows = Ok kept
        else kept = rows)
    /\ snd (OsPath.splitext (target a)) = ".csv"
    /\ files w' = <[target a := MINT_HEADERS :: map (record_of MINT_HEADERS) kept]>
                    (files w).
Proof.
  intros Hrun. unfold main in Hrun. cbv zeta in Hrun.
  stage Hrun E0 u0 x0. stage Hrun E1 u1 x1. stage Hrun E2 dd x2.
  stage Hrun E3 td x3. stage Hrun E4 rows x4. stage Hrun E5 kept x5.
  stage Hrun E6 path x6.
  exists dd, td, rows, kept, x1, x2, x3.
  assert (Hf0 : files x0 = files w).
  { rewrite run_emit in E0. now injection E0 as _ <-. }
  assert (Hf1 : files x1 = files x0).
  { pose proof (keeps_files_bind _ (fun _ : Z => mret tt)
                  (keeps_files_usage "Username or Password is incorrect")
                  (fun _ => keeps_files_ret tt) x0) as Hk.
    destruct (negb _).
    - rewrite E1 in Hk. exact Hk.
    - rewrite run_ret in E1. now injection E1 as _ <-. }
  assert (Hf2 : files x2 = files x1).
  { destruct (truthy_default_true (arg_dividends a)).
    - stage E2 Ed r y. rewrite run_ret in E2. injection E2 as _ <-.
      pose proof (fetchers_keep_files_div api x1) as Hk. now rewrite Ed in Hk.
    - rewrite run_ret in E2. now injection E2 as _ <-. }
  assert (Hf3 : files x3 = files x2).
  { destruct (truthy_default_true (trades a)).
    - stage E3 Et r y. rewrite run_ret in E3. injection E3 as _ <-.
      pose proof (fetchers_keep_files_trade api x2) as Hk. now rewrite Et in Hk.
    - rewrite run_ret in E3. now injection E3 as _ <-. }
  rewrite run_lift in E4. injection E4 as E4 <-.
  assert (Hf5 : files x5 = files x3).
  { destruct (truthy_opt_str (date a)).
    - rewrite run_lift in E5. now injection E5 as _ <-.
    - rewrite run_ret in E5. now injection E5 as _ <-. }
  assert (Hext : snd (OsPath.splitext (target a)) = ".csv").
  { destruct (String.eqb_spec (snd (OsPath.splitext (target a))) ".csv")
      as [Hext|Hext]; [exact Hext|]. exfalso. unfold target in Hext.
    destruct (truthy_opt_str (output a));
      rewrite (write_csv_refused _ _ _ _ Hext) in E6; discriminate. }
  split; [|split; [|split; [|split; [|split]]]].
  - destruct (truthy_default_true (arg_dividends a)).
    + stage E2 Ed r y. rewrite run_ret in E2. injection E2 as <- <-. eauto.
    + rewrite run_ret in E2. injection E2 as <- <-. now split.
  - destruct (truthy_default_true (trades a)).
    + stage E3 Et r y. rewrite run_ret in E3. injection E3 as <- <-. eauto.
    + rewrite run_ret in E3. injection E3 as <- <-. now split.
  - exact E4.
  - destruct (truthy_opt_str (date a)).
    + rewrite run_lift in E5. now injection E5 as -> _.
    + rewrite run_ret in E5. now injection E5 as -> _.
  - exact Hext.
  - rewrite run_emit in Hrun. injection Hrun as <-. cbn [files].
    assert (Hw : run (write_csv MINT_HEADERS kept (target a)) x5 = (Ok path, x6)).
    { unfold target. now destruct (truthy_opt_str (output a)). }
    rewrite (write_csv_complete _ _ _ _ Hext mint_headers_complete) in Hw.
    injection Hw as _ <-. cbn [files]. congruence.
Qed.

Lemma trade_data_length (api : Robinhood) (orders : list order)
    (out : list trade_datum) (w w' : world) :
  order_history api = Ok orders ->
  run (get_robinhood_trade_data api) w = (Ok out, w') ->
  length out = length (List.filter executed orders).
Proof.
  intros Ho Hrun. unfold get_robinhood_trade_data in Hrun.
  rewrite run_bind, run_order_history, Ho in Hrun.
  apply trade_loop_inv in Hrun as (_ & _ & new & -> & Hnew).
  now apply Forall2_length in Hnew.
Qed.

Lemma dividend_data_length (api : Robinhood) (ds : list dividend)
    (out : list dividend_datum) (w w' : world) :
  dividends api = Ok ds ->
  run (get_robinhood_dividend_data api) w = (Ok out, w') ->
  length out = length (List.filter paid ds).
Proof.
  intros Hd Hrun. unfold get_robinhood_dividend_data in Hrun.
  rewrite run_bind, run_dividends, Hd in Hrun.
  apply dividend_loop_inv in Hrun as (_ & _ & new & -> & Hnew).
  now apply Forall2_length in Hnew.
Qed.

Lemma parse_length (td : option (list trade_datum))
    (dd : option (list dividend_datum)) (rows : list mint_row) :
  parse_robinhood_data_to_mint td dd = Ok rows ->
  length rows = (length (default [] td) + length (default [] dd))%nat.
Proof.
  rewrite parse_loops. intros Hrows.
  destruct (for_each trade_line (default [] td) []) as [trows|e] eqn:Et;
    rewrite ?bind_ok, ?bind_raise in Hrows; [|discriminate].
  rewrite (for_each_acc dividend_line dividend_line_acc) in Hrows.
  destruct (for_each dividend_line (default [] dd) []) as [drows|e] eqn:Ed;
    rewrite ?bind_ok, ?bind_raise in Hrows; [|discriminate].
  injection Hrows as <-. rewrite length_app.
  apply trade_rows_inv, Forall2_length in Et.
  apply dividend_rows_inv, Forall2_length in Ed. lia.
Qed.

(** X22. A run that ends with status 0 has written, under the header,
    the records of a sublist of the rows of one row per executed order
    (if trades are on) and one row per paid dividend (if dividends are
    on); without [--date] it is all of these rows, so the file has as many
    records as there are executed orders and paid dividends. *)
Theorem script_output_rows (a : args) (api : Robinhood) (orders : list order)
    (ds : list dividend) (w : world) :
  order_history api = Ok orders ->
  dividends api = Ok ds ->
  fst (script a api w) = 0 ->
  exists rows kept,
    files (snd (script a api w))
    = <[target a := MINT_HEADERS :: map (record_of MINT_HEADERS) kept]> (files w)
    /\ length rows
       = ((if truthy_default_true (trades a)
           then length (List.filter executed orders) else 0)
          + (if truthy_default_true (arg_dividends a)
             then length (List.filter paid ds) else 0))%nat
    /\ sublist kept rows
    /\ (truthy_opt_str (date a) = false -> kept = rows).
Proof.
  intros Ho Hd Hst. unfold script in *.
  destruct (run (main a api) w) as [[[]|e] w'] eqn:Hrun; [|discriminate Hst].
  cbn [snd].
  apply main_stages in Hrun
    as (dd & td & rows & kept & w1 & w2 & w3 & Hdd & Htd & Hp & Hk & _ & Hf).
  exists rows, kept. split; [exact Hf|]. split; [|split].
  - rewrite (parse_length td dd rows Hp).
    destruct (truthy_default_true (trades a)).
    + destruct Htd as (r & Hr & ->). cbn [default from_option id length].
      rewrite (trade_data_length api orders r w2 w3 Ho Hr).
      destruct (truthy_default_true (arg_dividends a)).
      * destruct Hdd as (r' & Hr' & ->). cbn [default from_option id length].
        now rewrite (dividend_data_length api ds r' w1 w2 Hd Hr').
      * destruct Hdd as [-> _]. cbn [default from_option id length]. lia.
    + destruct Htd as [-> _]. cbn [default from_option id length].
      destruct (truthy_default_true (arg_dividends a)).
      * destruct Hdd as (r' & Hr' & ->). cbn [default from_option id length].
        now rewrite (dividend_data_length api ds r' w1 w2 Hd Hr').
      * destruct Hdd as [-> _]. cbn [default from_option id length]. lia.
  - destruct (truthy_opt_str (date a)).
    + apply filter_by_date_inv in Hk as (D & _ & _ & ->). apply filter_sublist.
    + now subst.
  - intros Hdate. now rewrite Hdate in Hk.
Qed.

End WholeRun.


(** ** Runs on concrete inputs *)

#[local] Existing Instance TermFloat.instance.

Lemma write_csv_wrong_extension_witness :
  snd (OsPath.splitext "out.txt") <> ".csv"
  /\ run (write_csv MINT_HEADERS Sample.rows "out.txt") Sample.empty_world
     = (Raise AssertionError, Sample.empty_world).
Proof.
  split; [discriminate|].
  apply (write_csv_wrong_extension MINT_HEADERS Sample.rows "out.txt").
  discriminate.
Defined.

(** A name that is nothing but an extension has none, and the comparison
    is case sensitive. *)
Example splitext_samples :
  OsPath.splitext "out.txt" = ("out", ".txt")
  /\ OsPath.splitext "reports/2020.q1/out.csv" = ("reports/2020.q1/out", ".csv")
  /\ OsPath.splitext ".csv" = (".csv", "")
  /\ OsPath.splitext "out.CSV" = ("out", ".CSV")
  /\ OsPath.splitext "archive.csv/out" = ("archive.csv/out", "").
Proof. repeat split. Qed.

(** With the right extension the file is written: header first, then one
    record per row, missing values as empty cells. *)
Example write_csv_sample :
  let outcome := run (write_csv MINT_HEADERS [Sample.row "05/18/2017" "MSFT" "5.04"]
                        "out.csv") Sample.empty_world in
  fst outcome = Ok "out.csv"
  /\ files (snd outcome) !! "out.csv"
     = Some [MINT_HEADERS;
             ["05/18/2017"; "MSFT"; "Investments:Dividend Income";
              "round(5.04)"; "credit"; ""; ""; ""; ""]].
Proof. cbv zeta. split; reflexivity. Qed.

Lemma null_paid_at_never_exported_witness :
  dividends Sample.locked_out = Ok [Sample.msft_dividend; Sample.pending_dividend]
  /\ script Sample.default_args Sample.locked_out Sample.empty_world
     = script Sample.default_args
         (with_dividends Sample.locked_out
            (List.filter not_null [Sample.msft_dividend; Sample.pending_dividend]))
         Sample.empty_world
  /\ forall out w',
       run (get_robinhood_dividend_data Sample.locked_out) Sample.empty_world
       = (Ok out, w') ->
       Forall2 (fun o d => not_null d = true
                           /\ dividend_amount o = amount d
                           /\ dividend_Date o = payable_date d)
         out (List.filter (fun d => truthy_opt_str (paid_at d))
                [Sample.msft_dividend; Sample.pending_dividend]).
Proof.
  split; [reflexivity|].
  apply (null_paid_at_never_exported Sample.default_args Sample.locked_out
           [Sample.msft_dividend; Sample.pending_dividend] Sample.empty_world).
  reflexivity.
Defined.

Lemma parse_robinhood_data_to_mint_rows_witness :
  Forall2 fetched_trade [Sample.aapl_trade]
    [(TermFloat.Lit "150.005", TermFloat.Lit "10")]
  /\ Forall2 fetched_dividend [Sample.msft_payment] [TermFloat.Lit "5.04"]
  /\ parse_robinhood_data_to_mint (Some [Sample.aapl_trade])
       (Some [Sample.msft_payment])
     = Ok (zip_with trade_output_row [Sample.aapl_trade]
             [(TermFloat.Lit "150.005", TermFloat.Lit "10")]
           ++ zip_with dividend_output_row [Sample.msft_payment]
                [TermFloat.Lit "5.04"])%list.
Proof.
  assert (Ht : Forall2 fetched_trade [Sample.aapl_trade]
                 [(TermFloat.Lit "150.005", TermFloat.Lit "10")]).
  { repeat constructor. exists (mk_datetime 2020 1 15). reflexivity. }
  assert (Hd : Forall2 fetched_dividend [Sample.msft_payment]
                 [TermFloat.Lit "5.04"]).
  { repeat constructor. exists (mk_datetime 2017 5 18). reflexivity. }
  split; [exact Ht|]. split; [exact Hd|].
  exact (parse_robinhood_data_to_mint_rows _ _ _ _ Ht Hd).
Defined.

(** The two scenarios of the specification, from the reply of the
    collaborator to the rows. *)
Example fetch_and_parse_sample :
  fst (run (get_robinhood_trade_data Sample.locked_out) Sample.empty_world)
  = Ok [Sample.aapl_trade]
  /\ fst (run (get_robinhood_dividend_data Sample.locked_out) Sample.empty_world)
     = Ok [Sample.msft_payment]
  /\ parse_robinhood_data_to_mint (Some [Sample.aapl_trade])
       (Some [Sample.msft_payment])
     = Ok [ {| Date := "01/15/2020";
               Description_Original := "AAPL";
               Description := "Investments:buy";
               Amount := TermFloat.Round
                           (TermFloat.Mul (TermFloat.Lit "150.005")
                              (TermFloat.Lit "10")) 2;
               Transaction_Type := "credit";
               Category := Some "buy";
               Account_Name := None;
               Labels := Some "10";
               Notes := Some "150.005" |};
            Sample.row "05/18/2017" "MSFT" "5.04" ].
Proof. split; [|split]; reflexivity. Qed.

(** *** A run with a refused login *)

Lemma do_usage_and_die_returns (message : string) (w : world) :
  run (do_usage_and_die message) w
  = (Ok 2, mk_world (log w ++ [Stderr message; PrintHelp])%list (files w)).
Proof.
  unfold do_usage_and_die. cbn. now rewrite <- app_assoc.
Qed.

(** C1, on the code.  The collaborator refuses the login; the script
    prints the message and the help, and goes on: both histories are
    requested, the csv file is written, and the exit status is 0. *)
Theorem refused_login_run :
  let outcome := script Sample.default_args Sample.locked_out
                   Sample.empty_world in
  fst outcome = 0
  /\ log (snd outcome)
     = [CallLogin "user" "wrong";
        Stderr "Username or Password is incorrect";
        PrintHelp;
        CallDividends;
        CallCustomEndpoint "https://api.robinhood.com/instruments/msft/";
        CallOrderHistory;
        CallCustomEndpoint "https://api.robinhood.com/instruments/aapl/";
        Stdout "AAPL";
        Elapsed]
  /\ files (snd outcome) !! "robinhood_output.csv"
     = Some [MINT_HEADERS;
             ["01/15/2020"; "AAPL"; "Investments:buy"; "round((150.005*10))";
              "credit"; "buy"; ""; "10"; "150.005"];
             ["05/18/2017"; "MSFT"; "Investments:Dividend Income";
              "round(5.04)"; "credit"; ""; ""; ""; ""]].
Proof.
  cbv zeta. split; [|split]; reflexivity.
Qed.

(** ** Runs for the further properties *)

Lemma trade_data_succeeds_iff_witness :
  order_history Portfolio.account = Ok Portfolio.orders
  /\ ((exists out w',
         run (get_robinhood_trade_data Portfolio.account) Sample.empty_world
         = (Ok out, w'))
      <-> forallb (order_ok Portfolio.account) Portfolio.orders = true).
Proof.
  split; [reflexivity|].
  apply (trade_data_succeeds_iff Portfolio.account Portfolio.orders
           Sample.empty_world).
  reflexivity.
Defined.

Lemma trade_data_executed_orders_witness :
  order_history Portfolio.account = Ok Portfolio.orders
  /\ run (get_robinhood_trade_data Portfolio.account) Sample.empty_world
     = (Ok Portfolio.fetched, Portfolio.after_trades)
  /\ Forall2 (trade_from Portfolio.account) Portfolio.fetched
       (List.filter executed Portfolio.orders).
Proof.
  split; [reflexivity|]. split; [reflexivity|].
  apply (trade_data_executed_orders Portfolio.account Portfolio.orders
           Portfolio.fetched Sample.empty_world Portfolio.after_trades);
    reflexivity.
Defined.

Lemma trade_data_requests_witness :
  order_history Portfolio.account = Ok Portfolio.orders
  /\ run (get_robinhood_trade_data Portfolio.account) Sample.empty_world
     = (Ok Portfolio.fetched, Portfolio.after_trades)
  /\ Portfolio.after_trades
     = logged Sample.empty_world
         (CallOrderHistory
          :: flat_map (order_log Portfolio.account) Portfolio.orders)
  /\ length (List.filter
               (fun ev => match ev with CallCustomEndpoint _ => true | _ => false end)
               (flat_map (order_log Portfolio.account) Portfolio.orders))
     = length Portfolio.orders.
Proof.
  split; [reflexivity|]. split; [reflexivity|].
  apply (trade_data_requests Portfolio.account Portfolio.orders
           Portfolio.fetched Sample.empty_world Portfolio.after_trades);
    reflexivity.
Defined.

Lemma dividend_data_paid_witness :
  dividends Portfolio.account
  = Ok [Sample.msft_dividend; Sample.pending_dividend]
  /\ run (get_robinhood_dividend_data Portfolio.account) Sample.empty_world
     = (Ok [Sample.msft_payment], Portfolio.after_dividends)
  /\ Forall2 (payment_from Portfolio.account) [Sample.msft_payment]
       (List.filter paid [Sample.msft_dividend; Sample.pending_dividend])
  /\ Portfolio.after_dividends
     = logged Sample.empty_world
         (CallDividends
          :: map (fun d => CallCustomEndpoint (dividend_instrument d))
               (List.filter paid [Sample.msft_dividend; Sample.pending_dividend])).
Proof.
  split; [reflexivity|]. split; [reflexivity|].
  apply (dividend_data_paid Portfolio.account
           [Sample.msft_dividend; Sample.pending_dividend]
           [Sample.msft_payment] Sample.empty_world Portfolio.after_dividends);
    reflexivity.
Defined.

Lemma dividend_data_succeeds_iff_witness :
  dividends Portfolio.account
  = Ok [Sample.msft_dividend; Sample.pending_dividend]
  /\ ((exists out w',
         run (get_robinhood_dividend_data Portfolio.account) Sample.empty_world
         = (Ok out, w'))
      <-> forallb (fun d => is_ok (get_custom_endpoint Portfolio.account
                                     (dividend_instrument d)))
            (List.filter paid [Sample.msft_dividend; Sample.pending_dividend])
          = true).
Proof.
  split; [reflexivity|].
  apply (dividend_data_succeeds_iff Portfolio.account
           [Sample.msft_dividend; Sample.pending_dividend] Sample.empty_world).
  reflexivity.
Defined.

Lemma parse_rows_of_records_witness :
  parse_robinhood_data_to_mint (Some [Sample.aapl_trade]) None
  = Ok [Portfolio.aapl_row]
  /\ exists trows drows,
       [Portfolio.aapl_row] = (trows ++ drows)%list
       /\ Forall2 row_of_trade trows (default [] (Some [Sample.aapl_trade]))
       /\ Forall2 row_of_dividend drows (default [] None).
Proof.
  split; [reflexivity|].
  apply (parse_rows_of_records (Some [Sample.aapl_trade]) None
           [Portfolio.aapl_row]).
  reflexivity.
Defined.

Lemma filter_by_date_sublist_witness :
  filter_by_date Date "05/18/2017" Sample.rows
  = Ok [Sample.row "01/01/2018" "KO" "0.39"]
  /\ sublist [Sample.row "01/01/2018" "KO" "0.39"] Sample.rows.
Proof.
  split; [reflexivity|].
  apply (filter_by_date_sublist Date "05/18/2017" Sample.rows
           [Sample.row "01/01/2018" "KO" "0.39"]).
  reflexivity.
Defined.

Lemma filter_by_date_twice_witness :
  parse_mint_date "12/31/2016" = Ok (mk_datetime 2016 12 31)
  /\ parse_mint_date "5/18/2017" = Ok (mk_datetime 2017 5 18)
  /\ Datetime.gt (mk_datetime 2016 12 31) (mk_datetime 2017 5 18) = false
  /\ filter_by_date Date "12/31/2016" Sample.rows
     = Ok [Sample.row "05/18/2017" "MSFT" "5.04";
           Sample.row "01/01/2018" "KO" "0.39"]
  /\ filter_by_date Date "5/18/2017"
       [Sample.row "05/18/2017" "MSFT" "5.04";
        Sample.row "01/01/2018" "KO" "0.39"]
     = filter_by_date Date "5/18/2017" Sample.rows
  /\ filter_by_date Date "12/31/2016"
       [Sample.row "05/18/2017" "MSFT" "5.04";
        Sample.row "01/01/2018" "KO" "0.39"]
     = Ok [Sample.row "05/18/2017" "MSFT" "5.04";
           Sample.row "01/01/2018" "KO" "0.39"].
Proof.
  do 4 (split; [reflexivity|]).
  apply (filter_by_date_twice Date "12/31/2016" "5/18/2017"
           (mk_datetime 2016 12 31) (mk_datetime 2017 5 18) Sample.rows);
    reflexivity.
Defined.




Lemma fetch_flags_witness :
  "False" <> EmptyString
  /\ script (with_trades Sample.default_args (Some "False")) Portfolio.account
       Sample.empty_world
     = script (with_trades Sample.default_args None) Portfolio.account
         Sample.empty_world
  /\ script (with_arg_dividends Sample.default_args (Some "False"))
       Portfolio.account Sample.empty_world
     = script (with_arg_dividends Sample.default_args None) Portfolio.account
         Sample.empty_world.
Proof.
  split; [discriminate|].
  apply (proj1 (fetch_flags Sample.default_args Portfolio.account "False"
                  Sample.empty_world)).
  discriminate.
Defined.

Lemma script_wrong_extension_witness :
  snd (OsPath.splitext (target Portfolio.to_text_file)) <> ".csv"
  /\ fst (script Portfolio.to_text_file Portfolio.account Sample.empty_world) = 1
  /\ files (snd (script Portfolio.to_text_file Portfolio.account
                   Sample.empty_world))
     = files Sample.empty_world
  /\ exists evs e,
       log (snd (script Portfolio.to_text_file Portfolio.account
                   Sample.empty_world))
       = (log Sample.empty_world ++ evs ++ [Traceback e])%list
       /\ (login Portfolio.account (username Portfolio.to_text_file)
             (password Portfolio.to_text_file) = true ->
           Forall (fun ev => ev <> PrintHelp) evs).
Proof.
  split; [discriminate|].
  apply (script_wrong_extension Portfolio.to_text_file Portfolio.account
           Sample.empty_world).
  discriminate.
Defined.

Lemma trade_date_drops_time_witness :
  trade_from Portfolio.account Portfolio.split_trade Portfolio.split_order
  /\ iso_date_value "2020-02-03" = Some (mk_datetime 2020 2 3)
  /\ trade_Date Portfolio.split_trade = "2020-02-03"
  /\ convert_robinhood_date (trade_Date Portfolio.split_trade)
     = Ok (iso_to_mint "2020-02-03")
  /\ mint_date_value (iso_to_mint "2020-02-03") = Some (mk_datetime 2020 2 3).
Proof.
  assert (Ht : trade_from Portfolio.account Portfolio.split_trade
                 Portfolio.split_order).
  { eexists _, _, _. repeat split; reflexivity. }
  split; [exact Ht|]. split; [reflexivity|].
  apply (trade_date_drops_time Portfolio.account Portfolio.split_trade
           Portfolio.split_order Portfolio.first_fill
           [{| quantity := "6"; price := "151.75";
               timestamp := "2020-02-03T14:31:00.000000Z" |}]
           "2020-02-03" "14:30:00.000000Z" (mk_datetime 2020 2 3) Ht);
    reflexivity.
Defined.

Lemma script_output_rows_witness :
  order_history Portfolio.account = Ok Portfolio.orders
  /\ dividends Portfolio.account
     = Ok [Sample.msft_dividend; Sample.pending_dividend]
  /\ fst (script Sample.default_args Portfolio.account Sample.empty_world) = 0
  /\ exists rows kept,
       files (snd (script Sample.default_args Portfolio.account
                     Sample.empty_world))
       = <[target Sample.default_args
           := MINT_HEADERS :: map (record_of MINT_HEADERS) kept]>
           (files Sample.empty_world)
       /\ length rows
          = ((if truthy_default_true (trades Sample.default_args)
              then length (List.filter executed Portfolio.orders) else 0)
             + (if truthy_default_true (arg_dividends Sample.default_args)
                then length (List.filter paid
                               [Sample.msft_dividend; Sample.pending_dividend])
                else 0))%nat
       /\ sublist kept rows
       /\ (truthy_opt_str (date Sample.default_args) = false -> kept = rows).
Proof.
  split; [reflexivity|]. split; [reflexivity|]. split; [reflexivity|].
  apply (script_output_rows Sample.default_args Portfolio.account
           Portfolio.orders [Sample.msft_dividend; Sample.pending_dividend]
           Sample.empty_world); reflexivity.
Defined.
